(** * Warning submission notebook: a model of its three code cells

    The repository is one Jupyter notebook,
    [doc/Warning Submission Using Python.ipynb].  Its code cells form a
    straight-line Python script that

    - cell 1: binds [secret_token], [userid], [url] and the [headers] dict;
    - cell 2: builds the [submission] dict (two warning records whose
      [Warning_ID] is the user id followed by [uuid4().hex]) and
      pretty-prints it;
    - cell 3: posts the submission with [requests.post] and pretty-prints
      the parsed JSON answer.

    Python values are modelled by the inductive type [pyval]; a dict is an
    association list in insertion order.  The three effects of the script
    (drawing a random UUID, the HTTP call, printing) are the nodes of a
    small interaction tree [prog], which [run] interprets against a
    [world] that supplies the random draws and the server's answers. *)

From Stdlib Require Import String Ascii List ZArith NArith Bool Lia DecimalString.
From Stdlib Require Import Permutation Sorted.
Import ListNotations.
Set Warnings "-register-all".
Open Scope string_scope.

(** ** Python values *)

Module Py.

(** A float literal of the notebook, kept as the decimal it is written as:
    [mantissa * 10 ^ (- places)].  The script never computes with floats, it
    only stores the literals in a dict. *)
Record pyfloat : Type := mkFloat { mantissa : Z; places : nat }.

Inductive pyval : Type :=
| VNone
| VBool (b : bool)
| VInt (z : Z)
| VFloat (f : pyfloat)
| VStr (s : string)
| VList (l : list pyval)
| VDict (d : list (string * pyval)).

(** A dict with string keys, in insertion order, keys pairwise distinct. *)
Definition pydict : Type := list (string * pyval).

Definition keys (d : pydict) : list string := map fst d.

(** [d[k]] as a lookup that may miss. *)
Fixpoint dict_get (k : string) (d : pydict) : option pyval :=
  match d with
  | [] => None
  | (k', v) :: d' => if String.eqb k k' then Some v else dict_get k d'
  end.

(** [d[k] = v]: an existing key keeps its position and gets the new value,
    a new key is appended. *)
Fixpoint dict_setitem (k : string) (v : pyval) (d : pydict) : pydict :=
  match d with
  | [] => [(k, v)]
  | (k', v') :: d' =>
      if String.eqb k k' then (k, v) :: d' else (k', v') :: dict_setitem k v d'
  end.

(** A dict display [{k1: v1, ..., kn: vn}] evaluates its items left to right
    and stores each in turn. *)
Definition dict_literal (items : list (string * pyval)) : pydict :=
  fold_left (fun d kv => dict_setitem (fst kv) (snd kv) d) items [].

(** A value is a scalar when it is neither a list nor a dict. *)
Definition is_scalar (v : pyval) : bool :=
  match v with
  | VList _ | VDict _ => false
  | _ => true
  end.

(** A flat mapping: every value bound in it is a scalar. *)
Definition is_flat (d : pydict) : bool := forallb (fun kv => is_scalar (snd kv)) d.

End Py.
Export Py.

(** ** [str.format] with positional fields

    The script uses the templates ['{0}:{1}'] and ["{0}{1}"].  The model
    covers literal text, the escapes [{{] and [}}], and replacement fields
    [{n}] with a decimal index and neither conversion nor format spec; the
    arguments are strings, which such a field inserts unchanged.  [None]
    stands for the exception Python raises (a stray brace, an index past
    the arguments) and for templates outside this fragment. *)

Module Format.

Definition digit_of (c : ascii) : option nat :=
  let n := nat_of_ascii c in
  if andb (48 <=? n)%nat (n <=? 57)%nat then Some (n - 48)%nat else None.

(** Reads the index of a replacement field after its opening brace, up to
    and including the closing brace; [acc] is the index read so far and
    [seen] tells whether a digit was read. *)
Fixpoint read_index (s : string) (acc : nat) (seen : bool) : option (nat * string) :=
  match s with
  | EmptyString => None
  | String c rest =>
      if Ascii.eqb c "}" then (if seen then Some (acc, rest) else None)
      else match digit_of c with
           | Some d => read_index rest (10 * acc + d) true
           | None => None
           end
  end.

(** [fuel] bounds the number of template characters still to be read. *)
Fixpoint format_aux (fuel : nat) (s : string) (args : list string) : option string :=
  match fuel with
  | O => match s with EmptyString => Some EmptyString | _ => None end
  | S fuel' =>
      match s with
      | EmptyString => Some EmptyString
      | String c rest =>
          if Ascii.eqb c "{" then
            match rest with
            | String c' rest' =>
                if Ascii.eqb c' "{" then
                  option_map (String "{") (format_aux fuel' rest' args)
                else
                  match read_index rest 0 false with
                  | Some (i, rest'') =>
                      match nth_error args i with
                      | Some a => option_map (append a) (format_aux fuel' rest'' args)
                      | None => None
                      end
                  | None => None
                  end
            | EmptyString => None
            end
          else if Ascii.eqb c "}" then
            match rest with
            | String c' rest' =>
                if Ascii.eqb c' "}" then
                  option_map (String "}") (format_aux fuel' rest' args)
                else None
            | EmptyString => None
            end
          else option_map (String c) (format_aux fuel' rest args)
      end
  end.

Definition format (template : string) (args : list string) : option string :=
  format_aux (String.length template) template args.

End Format.

(** ** What [pprint] writes

    [pprint(v)] writes [v] on one line when its [repr] fits in 80 columns;
    otherwise a dict or a list is written one item per line, dict items
    sorted by key.  The model follows [PrettyPrinter._format] with its
    defaults (indent 1, width 80, not compact) on the values of [pyval].
    Two cases lie outside it and give [None]: a string that is too wide for
    its line, which [pprint] would split, and a character whose [repr]
    depends on the Unicode tables beyond the ranges listed in [printable]. *)

Module Pprint.

Definition nl : string := String (ascii_of_nat 10) "".
Definition dquote : ascii := ascii_of_nat 34.
Definition backslash : ascii := ascii_of_nat 92.

Definition width : Z := 80.

Fixpoint spaces (n : nat) : string :=
  match n with
  | O => ""
  | S n' => String " " (spaces n')
  end.

(** Strings are kept as UTF-8; Python counts and classifies code points. *)
Fixpoint decode_utf8 (s : string) (need : nat) (acc : N) : option (list N) :=
  match s with
  | EmptyString => match need with O => Some [] | S _ => None end
  | String c rest =>
      let b := N_of_ascii c in
      match need with
      | O =>
          if (b <? 128)%N then option_map (cons b) (decode_utf8 rest 0 0)
          else if (b <? 192)%N then None
          else if (b <? 224)%N then decode_utf8 rest 1 (b - 192)
          else if (b <? 240)%N then decode_utf8 rest 2 (b - 224)
          else if (b <? 248)%N then decode_utf8 rest 3 (b - 240)
          else None
      | S need' =>
          if ((128 <=? b) && (b <? 192))%N then
            let acc' := (acc * 64 + (b - 128))%N in
            match need' with
            | O => option_map (cons acc') (decode_utf8 rest 0 0)
            | S _ => decode_utf8 rest need' acc'
            end
          else None
      end
  end.

Definition code_points (s : string) : option (list N) := decode_utf8 s 0 0.

(** [len(s)]: the bytes that start a code point. *)
Fixpoint py_len (s : string) : Z :=
  match s with
  | EmptyString => 0
  | String c rest =>
      let b := N_of_ascii c in
      (if ((128 <=? b) && (b <? 192))%N then 0 else 1) + py_len rest
  end.

(** Code points known to be printable: ASCII from space to tilde, the
    Latin-1 letters, Latin Extended-A, and the quotation marks U+2018 to
    U+201F. *)
Definition printable (cp : N) : bool :=
  ((32 <=? cp) && (cp <=? 126)
   || (192 <=? cp) && (cp <=? 383)
   || (8216 <=? cp) && (cp <=? 8223))%N.

Definition hex_digit (n : nat) : ascii :=
  ascii_of_nat (if (n <? 10)%nat then 48 + n else 87 + n).

Definition escape_char (q c : ascii) : string :=
  let n := nat_of_ascii c in
  if Ascii.eqb c backslash then String backslash (String backslash "")
  else if Ascii.eqb c q then String backslash (String q "")
  else if (n =? 10)%nat then String backslash "n"
  else if (n =? 13)%nat then String backslash "r"
  else if (n =? 9)%nat then String backslash "t"
  else if ((n <? 32) || (n =? 127))%nat then
    String backslash (String "x" (String (hex_digit (n / 16))
                                         (String (hex_digit (n mod 16)) "")))
  else String c "".

Fixpoint escape (q : ascii) (s : string) : string :=
  match s with
  | EmptyString => EmptyString
  | String c rest => escape_char q c ++ escape q rest
  end.

Fixpoint contains (c : ascii) (s : string) : bool :=
  match s with
  | EmptyString => false
  | String c' rest => Ascii.eqb c c' || contains c rest
  end.

(** [repr] of a [str]: single quotes, unless the string has a single quote
    and no double quote. *)
Definition str_repr (s : string) : option string :=
  match code_points s with
  | Some cps =>
      if forallb (fun cp => (cp <? 128)%N || printable cp) cps then
        let q := if contains "'" s && negb (contains dquote s) then dquote else "'"%char in
        Some (String q (escape q s ++ String q ""))
      else None
  | None => None
  end.

Definition int_repr (z : Z) : string :=
  DecimalString.NilZero.string_of_int (Z.to_int z).

(** The [d] decimal digits of [n], most significant first. *)
Fixpoint digits (d : nat) (n : N) : string :=
  match d with
  | O => ""
  | S d' => String (ascii_of_N (48 + (n / 10 ^ N.of_nat d') mod 10)) (digits d' n)
  end.

Fixpoint strip_zeros (s : string) : string :=
  match s with
  | EmptyString => EmptyString
  | String c rest =>
      match strip_zeros rest with
      | EmptyString => if Ascii.eqb c "0" then EmptyString else String c EmptyString
      | rest' => String c rest'
      end
  end.

(** [repr] of a float written with at most 15 significant digits and of
    magnitude at least [1e-4]: the literal itself with trailing zeros
    dropped, which is the shortest string that reads back as the same
    double. *)
Definition float_repr (f : pyfloat) : option string :=
  let a := Z.to_N (Z.abs (mantissa f)) in
  let p := (10 ^ N.of_nat (places f))%N in
  if ((a <? 10 ^ 15) && ((a =? 0) || (p <=? a * 10 ^ 4)))%N then
    let frac := match strip_zeros (digits (places f) (a mod p)) with
                | EmptyString => "0"
                | fr => fr
                end in
    Some ((if (mantissa f <? 0)%Z then "-" else "")
          ++ DecimalString.NilZero.string_of_uint (N.to_uint (a / p)) ++ "." ++ frac)
  else None.

Fixpoint all_some {A : Type} (l : list (option A)) : option (list A) :=
  match l with
  | [] => Some []
  | Some a :: l' => option_map (cons a) (all_some l')
  | None :: _ => None
  end.

(** [sorted(d.items())] for string keys. *)
Fixpoint insert_item {V : Type} (kv : string * V) (l : list (string * V)) : list (string * V) :=
  match l with
  | [] => [kv]
  | h :: t => if String.leb (fst kv) (fst h) then kv :: l else h :: insert_item kv t
  end.

Definition sort_items {V : Type} (l : list (string * V)) : list (string * V) :=
  fold_right insert_item [] l.

(** The one-line form, [_safe_repr]. *)
Fixpoint safe_repr (v : pyval) : option string :=
  match v with
  | VNone => Some "None"
  | VBool b => Some (if b then "True" else "False")
  | VInt z => Some (int_repr z)
  | VFloat f => float_repr f
  | VStr s => str_repr s
  | VList l =>
      option_map (fun rs => "[" ++ String.concat ", " rs ++ "]")
                 (all_some (map safe_repr l))
  | VDict d =>
      option_map (fun rs => "{" ++ String.concat ", " rs ++ "}")
                 (all_some
                    (map (fun kr =>
                            match str_repr (fst kr), snd kr with
                            | Some k, Some r => Some (k ++ ": " ++ r)
                            | _, _ => None
                            end)
                         (sort_items (map (fun kv => (fst kv, safe_repr (snd kv))) d))))
  end.

(** A value still to be laid out, given its indent and allowance. *)
Definition layout : Type := Z -> Z -> option string.

(** [_format_dict_items], the items sorted already. *)
Definition format_dict_items (items : list (string * layout)) (indent allowance : Z)
  : option string :=
  let indent := (indent + 1)%Z in
  let delimnl := "," ++ nl ++ spaces (Z.to_nat indent) in
  (fix loop (items : list (string * layout)) : option string :=
     match items with
     | [] => Some ""
     | (k, ent) :: rest =>
         match str_repr k with
         | None => None
         | Some rep =>
             let last := match rest with [] => true | _ => false end in
             match ent (indent + py_len rep + 2)%Z (if last then allowance else 1%Z) with
             | None => None
             | Some body =>
                 if last then Some (rep ++ ": " ++ body)
                 else option_map (fun r => rep ++ ": " ++ body ++ delimnl ++ r) (loop rest)
             end
         end
     end) items.

(** [_format_items], not compact. *)
Definition format_items (items : list layout) (indent allowance : Z) : option string :=
  let indent := (indent + 1)%Z in
  let delimnl := "," ++ nl ++ spaces (Z.to_nat indent) in
  (fix loop (items : list layout) : option string :=
     match items with
     | [] => Some ""
     | ent :: rest =>
         let last := match rest with [] => true | _ => false end in
         match ent indent (if last then allowance else 1%Z) with
         | None => None
         | Some body =>
             if last then Some body
             else option_map (fun r => body ++ delimnl ++ r) (loop rest)
         end
     end) items.

(** [_format] *)
Fixpoint format_ (v : pyval) (indent allowance : Z) : option string :=
  match safe_repr v with
  | None => None
  | Some rep =>
      if (py_len rep <=? width - indent - allowance)%Z then Some rep
      else
        match v with
        | VDict d =>
            option_map (fun body => "{" ++ body ++ "}")
                       (format_dict_items
                          (sort_items (map (fun kv => (fst kv, format_ (snd kv))) d))
                          indent (allowance + 1))
        | VList l =>
            option_map (fun body => "[" ++ body ++ "]")
                       (format_items (map format_ l) indent (allowance + 1))
        | VStr s => match s with EmptyString => Some rep | _ => None end
        | _ => Some rep
        end
  end.

Definition pformat (v : pyval) : option string := format_ v 0 0.

(** The text that [pprint(v)] writes to the output. *)
Definition pprint_text (v : pyval) : option string :=
  option_map (fun s => s ++ nl) (pformat v).

(** The value in the order [pprint] shows it: every dict sorted by key. *)
Fixpoint shown (v : pyval) : pyval :=
  match v with
  | VList l => VList (map shown l)
  | VDict d => VDict (sort_items (map (fun kv => (fst kv, shown (snd kv))) d))
  | _ => v
  end.

Definition lines (l : list string) : string :=
  String.concat "" (map (fun s => s ++ nl) l).

(** Characters that [repr] copies and counts as one column each whatever
    the quote: printable ASCII other than the single quote and the
    backslash. *)
Definition plain_char (c : ascii) : bool :=
  let n := nat_of_ascii c in
  ((32 <=? n) && (n <=? 126) && negb (n =? 39) && negb (n =? 92))%nat.

Fixpoint plain (s : string) : bool :=
  match s with
  | EmptyString => true
  | String c rest => plain_char c && plain rest
  end.

End Pprint.
Export Pprint.

(** ** Header lines

    What [requests] and [http.client] accept as a header before a request
    goes out.  A header value is first matched by [requests] against the
    pattern [^\S[^\r\n]*$|^$] ([check_header_validity]); when the request is
    about to be written, [http.client.putheader] encodes the name as ASCII
    and the value as latin-1 and refuses illegal names and values.  Strings
    are UTF-8, as everywhere in this file; a string that is no well-formed
    UTF-8 stands for no Python [str] and is refused at the encoding. *)

Module Http.

Inductive exn : Type :=
| IndexError
| ValueError
| UnicodeEncodeError
| UnicodeDecodeError
| InvalidHeader
| InvalidSchema
| ConnectionError
| Timeout
| TooManyRedirects
| JSONDecodeError.

Definition lower_ascii (c : ascii) : ascii :=
  let n := nat_of_ascii c in
  if andb (65 <=? n)%nat (n <=? 90)%nat then ascii_of_nat (n + 32) else c.

Fixpoint lower (s : string) : string :=
  match s with
  | EmptyString => EmptyString
  | String c rest => String (lower_ascii c) (lower rest)
  end.

Fixpoint bytes (s : string) : list N :=
  match s with
  | EmptyString => []
  | String c rest => N_of_ascii c :: bytes rest
  end.

(** [str.isspace] on a code point, which is what [\s] means in a pattern
    over [str]. *)
Definition py_isspace (cp : N) : bool :=
  ((9 <=? cp) && (cp <=? 13)
   || (28 <=? cp) && (cp <=? 32)
   || (cp =? 133) || (cp =? 160) || (cp =? 5760)
   || (8192 <=? cp) && (cp <=? 8202)
   || (cp =? 8232) || (cp =? 8233) || (cp =? 8239) || (cp =? 8287)
   || (cp =? 12288))%N.

(** What may follow the first character under [[^\r\n]*$]: neither CR nor
    LF, but for one LF that ends the string, before which [$] matches. *)
Fixpoint tail_ok (cps : list N) : bool :=
  match cps with
  | [] => true
  | c :: rest =>
      if (c =? 10)%N then match rest with [] => true | _ :: _ => false end
      else if (c =? 13)%N then false
      else tail_ok rest
  end.

(** [check_header_validity] of [requests] on a [str] value. *)
Definition requests_value_ok (v : string) : bool :=
  match code_points v with
  | None => true
  | Some [] => true
  | Some (c :: rest) =>
      if (c =? 10)%N then match rest with [] => true | _ :: _ => false end
      else negb (py_isspace c) && tail_ok rest
  end.

(** [_is_legal_header_name]: the bytes match [[^:\s][^:\r\n]*] in full. *)
Definition ascii_space (b : N) : bool :=
  ((9 <=? b) && (b <=? 13) || (b =? 32))%N.

Definition legal_name (bs : list N) : bool :=
  match bs with
  | [] => false
  | b :: rest =>
      negb (b =? 58)%N && negb (ascii_space b)
      && forallb (fun c => negb (c =? 58)%N && negb (c =? 13)%N && negb (c =? 10)%N) rest
  end.

(** [_is_illegal_header_value]: an LF not followed by a space or a tab, or
    a CR not followed by a space, a tab or an LF. *)
Fixpoint illegal_value (bs : list N) : bool :=
  match bs with
  | [] => false
  | b :: rest =>
      let followed_by (l : list N) :=
        match rest with
        | c :: _ => existsb (N.eqb c) l
        | [] => false
        end in
      (if (b =? 10)%N then negb (followed_by [32; 9]%N)
       else if (b =? 13)%N then negb (followed_by [32; 9; 10]%N)
       else false)
      || illegal_value rest
  end.

(** [putheader] on the name: encoded as ASCII, then checked. *)
Definition name_error (name : string) : option exn :=
  if forallb (fun b => b <? 128)%N (bytes name) then
    if legal_name (bytes name) then None else Some ValueError
  else Some UnicodeEncodeError.

(** [putheader] on the value: encoded as latin-1, then checked. *)
Definition value_error (v : string) : option exn :=
  match code_points v with
  | None => Some UnicodeEncodeError
  | Some cps =>
      if forallb (fun c => c <? 256)%N cps then
        if illegal_value cps then Some ValueError else None
      else Some UnicodeEncodeError
  end.

(** The headers are put in order; the first that is refused ends the
    attempt. *)
Fixpoint wire_error (hs : list (string * string)) : option exn :=
  match hs with
  | [] => None
  | (k, v) :: hs' =>
      match name_error k with
      | Some e => Some e
      | None =>
          match value_error v with
          | Some e => Some e
          | None => wire_error hs'
          end
      end
  end.

(** A value that passes both checks. *)
Definition valid_header_value (v : string) : bool :=
  requests_value_ok v && match value_error v with None => true | Some _ => false end.

End Http.
Export Http.

(** ** Effects of the script

    A program is a finite tree of the three effects the notebook has:
    [uuid4().hex] asks the environment for a string, a request is handed to
    the transport and an answer comes back, [pprint] writes a value.
    [Raise] is an uncaught Python exception, which ends the script. *)

Module Eff.

(** Where a request goes: the URL the caller gave, or what the [Location]
    of a redirect answer resolves to against the URL that was asked.  The
    resolution itself ([urljoin], requoting, fragments) is not computed. *)
Inductive url : Type :=
| Url (s : string)
| Redirected (base : url) (location : string).

(** A request as it is written to the connection.  Of the headers, the
    model lists the ones the call determines: those the caller passes and the
    content type the library adds for a [json=] body.  What the session adds
    of its own (default headers such as [User-Agent], [Content-Length],
    cookies a server has set, credentials from [.netrc]) is not listed, and a
    caller's [Authorization] header, which a redirect to another host drops,
    is outside the model: the notebook passes none.  [req_json] is the object
    serialized as the body, [None] for a request without body. *)
Record request : Type := mkRequest {
  req_method : string;
  req_url : url;
  req_headers : list (string * string);
  req_json : option pyval
}.

(** An answer.  [resp_headers] has one entry per header name, the value as
    the bytes received; [resp_json] is the outcome of parsing the body the
    server sent as JSON, [None] when that is no JSON document. *)
Record response : Type := mkResponse {
  status_code : Z;
  resp_headers : list (string * string);
  resp_json : option pyval
}.

Inductive prog (A : Type) : Type :=
| Ret (a : A)
| Raise (e : exn)
| Uuid4Hex (k : string -> prog A)
| Post (r : request) (k : response -> prog A)
| Print (v : pyval) (k : prog A).

Arguments Ret {A} a.
Arguments Raise {A} e.
Arguments Uuid4Hex {A} k.
Arguments Post {A} r k.
Arguments Print {A} v k.

Fixpoint bind {A B : Type} (p : prog A) (f : A -> prog B) : prog B :=
  match p with
  | Ret a => f a
  | Raise e => Raise e
  | Uuid4Hex k => Uuid4Hex (fun h => bind (k h) f)
  | Post r k => Post r (fun resp => bind (k resp) f)
  | Print v k => Print v (bind k f)
  end.

Definition uuid4_hex : prog string := Uuid4Hex Ret.
Definition pprint (v : pyval) : prog unit := Print v (Ret tt).
Definition post (r : request) : prog response := Post r Ret.

(** An operation that may raise, as a program. *)
Definition or_raise {A : Type} (e : exn) (o : option A) : prog A :=
  match o with
  | Some a => Ret a
  | None => Raise e
  end.

(** What becomes of one request:
    - [NotSent e]: nothing is written (no adapter for the URL, no route, a
      refused connection, a failed handshake) and [e] is raised;
    - [Lost e]: the request is written, then the exchange fails (the
      connection drops, the body cannot be read) and [e] is raised;
    - [Silent]: the request is written and no answer ever comes; the call,
      which sets no timeout, never returns;
    - [Answered resp]: the request is written and [resp] is read. *)
Inductive exchange : Type :=
| NotSent (e : exn)
| Lost (e : exn)
| Silent
| Answered (resp : response).

(** The environment of one run: the strings the successive [uuid4().hex]
    calls return, and what becomes of each request. *)
Record world : Type := mkWorld {
  draw : nat -> string;
  server : request -> exchange
}.

(** What an observer of the run sees, in order: a request written to the
    network, a value printed. *)
Inductive event : Type :=
| EvPost (r : request)
| EvPrint (v : pyval).

(** How a run ends: the script returns, an exception ends it, or it waits
    for ever. *)
Inductive outcome (A : Type) : Type :=
| Returned (a : A)
| Raised (e : exn)
| Blocked.

Arguments Returned {A} a.
Arguments Raised {A} e.
Arguments Blocked {A}.

Record run_result (A : Type) : Type := mkRun {
  trace : list event;
  final : outcome A;
  draws_used : nat
}.

Arguments mkRun {A} _ _ _.
Arguments trace {A} _.
Arguments final {A} _.
Arguments draws_used {A} _.

Definition emit {A : Type} (e : event) (r : run_result A) : run_result A :=
  mkRun (e :: trace r) (final r) (draws_used r).

Definition plain_http (u : url) : bool :=
  match u with
  | Url s => String.prefix "http://" (lower s)
  | Redirected _ _ => false
  end.

(** Handing a request to the transport.  The headers are encoded after the
    connection is made and before anything is written; a header that is
    refused there means nothing is sent.  (Over plain [http://] the
    connection is made only when the headers are written out, so there the
    header error comes first.) *)
Definition transmit (w : world) (r : request) : exchange :=
  match wire_error (req_headers r) with
  | None => server w r
  | Some e' =>
      match server w r with
      | NotSent e => NotSent (if plain_http (req_url r) then e' else e)
      | _ => NotSent e'
      end
  end.

(** [run p w n] runs [p] in world [w], the next UUID drawn being number [n]. *)
Fixpoint run {A : Type} (p : prog A) (w : world) (n : nat) : run_result A :=
  match p with
  | Ret a => mkRun [] (Returned a) n
  | Raise e => mkRun [] (Raised e) n
  | Uuid4Hex k => run (k (draw w n)) w (S n)
  | Post r k =>
      match transmit w r with
      | NotSent e => mkRun [] (Raised e) n
      | Lost e => mkRun [EvPost r] (Raised e) n
      | Silent => mkRun [EvPost r] Blocked n
      | Answered resp => emit (EvPost r) (run (k resp) w n)
      end
  | Print v k => emit (EvPrint v) (run k w n)
  end.

End Eff.
Export Eff.

Declare Scope prog_scope.
Delimit Scope prog_scope with prog.
Notation "x <- p ;; q" := (bind p (fun x => q))
  (at level 61, p at next level, right associativity) : prog_scope.
Notation "p ;; q" := (bind p (fun _ => q))
  (at level 61, right associativity) : prog_scope.

(** ** The part of [requests] the script calls *)

Module Requests.

(** Header names compare without regard to case. *)
Definition has_header (name : string) (hs : list (string * string)) : bool :=
  existsb (fun h => String.eqb (lower (fst h)) (lower name)) hs.

Fixpoint get_header (name : string) (hs : list (string * string)) : option string :=
  match hs with
  | [] => None
  | (k, v) :: hs' =>
      if String.eqb (lower k) (lower name) then Some v else get_header name hs'
  end.

Definition remove_header (name : string) (hs : list (string * string))
  : list (string * string) :=
  filter (fun h => negb (String.eqb (lower (fst h)) (lower name))) hs.

(** The [headers=] dict as a header list; a value that is no string is
    refused. *)
Fixpoint header_items (d : pydict) : option (list (string * string)) :=
  match d with
  | [] => Some []
  | (k, VStr v) :: d' => option_map (cons (k, v)) (header_items d')
  | _ :: _ => None
  end.

(** With a [json=] argument and no [data=], the body is the serialized
    object and the content type [application/json] is added unless the
    caller has set a content type. *)
Definition prepare_headers (hs : list (string * string)) : list (string * string) :=
  if has_header "Content-Type" hs then hs
  else (hs ++ [("Content-Type", "application/json")])%list.

(** *** Redirects

    [requests.post] follows redirects ([allow_redirects] is on by default,
    [max_redirects] is 30). *)

Definition max_redirects : nat := 30.

Definition is_redirect_status (s : Z) : bool :=
  ((s =? 301) || (s =? 302) || (s =? 303) || (s =? 307) || (s =? 308))%Z.

Inductive target : Type :=
| NoRedirect
| BadLocation
| Target (location : string).

(** [get_redirect_target]: a redirect status with a [Location] header; the
    header bytes are read as UTF-8, and an empty location ends the loop. *)
Definition redirect_target (resp : response) : target :=
  if is_redirect_status (status_code resp) then
    match get_header "location" (resp_headers resp) with
    | Some loc =>
        match code_points loc with
        | None => BadLocation
        | Some [] => NoRedirect
        | Some (_ :: _) => Target loc
        end
    | None => NoRedirect
    end
  else NoRedirect.

(** [rebuild_method]: 303 and 302 turn anything but [HEAD] into [GET],
    301 turns [POST] into [GET]. *)
Definition rebuild_method (method : string) (status : Z) : string :=
  if ((status =? 303) || (status =? 302))%Z && negb (String.eqb method "HEAD") then "GET"
  else if (status =? 301)%Z && String.eqb method "POST" then "GET"
  else method.

Definition keeps_body (status : Z) : bool := ((status =? 307) || (status =? 308))%Z.

(** The request that follows the redirect answer [resp] to [req]: unless
    the status is 307 or 308 the body and its headers go; a [Cookie] header
    of the caller's goes in every case. *)
Definition redirected (req : request) (resp : response) (location : string) : request :=
  let status := status_code resp in
  let hs :=
    if keeps_body status then req_headers req
    else remove_header "Transfer-Encoding"
           (remove_header "Content-Type"
              (remove_header "Content-Length" (req_headers req))) in
  mkRequest (rebuild_method (req_method req) status)
            (Redirected (req_url req) location)
            (remove_header "Cookie" hs)
            (if keeps_body status then req_json req else None).

(** [Session.send] with [resolve_redirects]: [left] is the number of
    redirects that may still be followed. *)
Fixpoint send_following (left : nat) (req : request) : prog response :=
  Post req
       (fun resp =>
          match redirect_target resp with
          | NoRedirect => Ret resp
          | BadLocation => Raise UnicodeDecodeError
          | Target location =>
              match left with
              | O => Raise TooManyRedirects
              | S left' => send_following left' (redirected req resp location)
              end
          end).

(** [requests.post(url, headers=headers, json=json)] *)
Definition requests_post (url : string) (headers : pydict) (json : pyval) : prog response :=
  (hs <- or_raise InvalidHeader (header_items headers) ;;
   if forallb (fun h => requests_value_ok (snd h)) hs
   then send_following max_redirects
          (mkRequest "POST" (Url url) (prepare_headers hs) (Some json))
   else Raise InvalidHeader)%prog.

(** A status that comes without body: what the server sends after the
    headers is not read. *)
Definition bodyless (s : Z) : bool :=
  ((s =? 204) || (s =? 304) || (100 <=? s) && (s <? 200))%Z.

Definition body_json (r : response) : option pyval :=
  if bodyless (status_code r) then None else resp_json r.

(** [result.json()] *)
Definition response_json (r : response) : prog pyval :=
  or_raise JSONDecodeError (body_json r).

End Requests.
Export Requests.

(** ** The notebook *)

Module Notebook.

Local Open Scope prog_scope.

(** *** Cell 1: credentials, endpoint and headers

    [secret_token] and [userid] are the two literals a participant replaces
    by their own; the notebook itself runs with ["mysecretkey"] and
    ["testuser"]. *)

Record cell1_vars : Type := mkCell1 {
  secret_token : string;
  userid : string;
  url : string;
  headers : pydict
}.

Definition cell1 (the_token the_user : string) : prog cell1_vars :=
  let secret_token := the_token in
  let userid := the_user in
  let url := "https://87g554i96c.execute-api.us-east-1.amazonaws.com/Production/warning/intake" in
  key <- or_raise IndexError (Format.format "{0}:{1}" [userid; secret_token]) ;;
  let headers := dict_literal [("x-api-key", VStr key)] in
  Ret (mkCell1 secret_token userid url headers).

(** *** Cell 2: the submission *)

Record cell2_vars : Type := mkCell2 {
  submission : pydict;
  country : string;
  event_type : string;
  subtype : string;
  warn_id_0 : string;
  event_date_0 : string;
  actor_0 : string;
  lat_0 : pyfloat;
  lon_0 : pyfloat;
  city_0 : string;
  state_0 : string;
  warn_content_0 : pydict;
  warn_id_1 : string;
  event_date_1 : string;
  actor_1 : string;
  lat_1 : pyfloat;
  lon_1 : pyfloat;
  city_1 : string;
  state_1 : string;
  warn_content_1 : pydict
}.

Definition cell2 (g : cell1_vars) : prog cell2_vars :=
  let submission := dict_literal [("participant_id", VStr (userid g));
                                  ("payload", VList [])] in
  let country := "Saudi Arabia" in
  let event_type := "Military Activity" in
  let subtype := "Conflict" in
  hex_0 <- uuid4_hex ;;
  warn_id_0 <- or_raise IndexError (Format.format "{0}{1}" [userid g; hex_0]) ;;
  let event_date_0 := "2019-08-22" in
  let actor_0 := "Royal Saudi Military" in
  let lat_0 := mkFloat 265208 4 in
  let lon_0 := mkFloat 500245 4 in
  let city_0 := "Al Qaţīf" in
  let state_0 := "Eastern Province" in
  let warn_content_0 := dict_literal [("Actor", VStr actor_0);
                                      ("City", VStr city_0);
                                      ("State", VStr state_0);
                                      ("Country", VStr country);
                                      ("Latitude", VFloat lat_0);
                                      ("Longitude", VFloat lon_0);
                                      ("Event_Date", VStr event_date_0);
                                      ("Event_Type", VStr event_type);
                                      ("Event_Subtype", VStr subtype);
                                      ("Warning_ID", VStr warn_id_0)] in
  hex_1 <- uuid4_hex ;;
  warn_id_1 <- or_raise IndexError (Format.format "{0}{1}" [userid g; hex_1]) ;;
  let event_date_1 := "2019-08-24" in
  let actor_1 := "Royal Saudi Military" in
  let lat_1 := mkFloat 265936 4 in
  let lon_1 := mkFloat 499875 4 in
  let city_1 := "Al ‘Awāmīyah" in
  let state_1 := "Eastern Province" in
  let warn_content_1 := dict_literal [("Actor", VStr actor_1);
                                      ("City", VStr city_1);
                                      ("State", VStr state_1);
                                      ("Country", VStr country);
                                      ("Latitude", VFloat lat_1);
                                      ("Longitude", VFloat lon_1);
                                      ("Event_Date", VStr event_date_1);
                                      ("Event_Type", VStr event_type);
                                      ("Event_Subtype", VStr subtype);
                                      ("Warning_ID", VStr warn_id_1)] in
  let submission :=
    dict_setitem "payload" (VList [VDict warn_content_0; VDict warn_content_1])
                 submission in
  pprint (VDict submission) ;;
  Ret (mkCell2 submission country event_type subtype
         warn_id_0 event_date_0 actor_0 lat_0 lon_0 city_0 state_0 warn_content_0
         warn_id_1 event_date_1 actor_1 lat_1 lon_1 city_1 state_1 warn_content_1).

(** *** Cell 3: the request *)

Record cell3_vars : Type := mkCell3 {
  result : response
}.

Definition cell3 (g1 : cell1_vars) (g2 : cell2_vars) : prog cell3_vars :=
  result <- requests_post (url g1) (headers g1) (VDict (submission g2)) ;;
  parsed <- response_json result ;;
  pprint parsed ;;
  Ret (mkCell3 result).

(** *** The cells in order *)

Record namespace : Type := mkNamespace {
  vars1 : cell1_vars;
  vars2 : cell2_vars;
  vars3 : cell3_vars
}.

Definition notebook (the_token the_user : string) : prog namespace :=
  g1 <- cell1 the_token the_user ;;
  g2 <- cell2 g1 ;;
  g3 <- cell3 g1 g2 ;;
  Ret (mkNamespace g1 g2 g3).

(** Cells 1 and 2 alone: the part of the notebook that builds the
    submission. *)
Definition cells_1_2 (the_token the_user : string) : prog cell2_vars :=
  g1 <- cell1 the_token the_user ;;
  cell2 g1.

End Notebook.
Export Notebook.

(** ** What [uuid4().hex] returns: 32 lowercase hexadecimal digits *)

Module Uuid.

Definition is_hex_digit (c : ascii) : bool :=
  let n := nat_of_ascii c in
  ((48 <=? n) && (n <=? 57) || (97 <=? n) && (n <=? 102))%nat.

Fixpoint all_hex (s : string) : bool :=
  match s with
  | EmptyString => true
  | String c rest => is_hex_digit c && all_hex rest
  end.

Definition hex_token (s : string) : bool :=
  (String.length s =? 32)%nat && all_hex s.

End Uuid.
Export Uuid.

(** ** Vocabulary for the properties *)

Module Shape.

(** The requests of a trace, in order. *)
Fixpoint posted (t : list event) : list request :=
  match t with
  | [] => []
  | EvPost r :: t' => r :: posted t'
  | EvPrint _ :: t' => posted t'
  end.

(** The fields every warning has, whatever its event type: actor, place,
    date, type and subtype, identifier. *)
Definition common_fields : list string :=
  ["Actor"; "City"; "State"; "Country"; "Latitude"; "Longitude";
   "Event_Date"; "Event_Type"; "Event_Subtype"; "Warning_ID"].

Definition mem (k : string) (l : list string) : bool := existsb (String.eqb k) l.

Definition has_fields (names : list string) (d : pydict) : bool :=
  forallb (fun k => mem k (keys d)) names.

(** A record carries a domain-specific attribute (such as [Case_Count])
    when one of its keys is none of the common fields. *)
Definition has_domain_attribute (d : pydict) : bool :=
  existsb (fun k => negb (mem k common_fields)) (keys d).

(** The shape of a warning record in the words of the data model: flat,
    with the common fields and with domain-specific attributes. *)
Definition described_record (v : pyval) : bool :=
  match v with
  | VDict d => is_flat d && has_fields common_fields d && has_domain_attribute d
  | _ => false
  end.

(** The endpoint the notebook names. *)
Definition intake_url : string :=
  "https://87g554i96c.execute-api.us-east-1.amazonaws.com/Production/warning/intake".

(** The headers of a request apart from the API key. *)
Definition other_headers (r : request) : list (string * string) :=
  filter (fun h => negb (String.eqb (lower (fst h)) "x-api-key")) (req_headers r).

(** The run the notebook records: the two hex strings of its printed
    submission, and the answer its last cell shows. *)
Definition recorded_answer : pyval :=
  VDict [("New warnings or versions inserted", VInt 2);
         ("reason", VNone);
         ("Total operations", VInt 2);
         ("Existing warnings updated", VInt 0);
         ("Invalid warnings", VInt 0);
         ("result", VStr "ok")].

Definition recorded_world : world :=
  mkWorld (fun n => match n with
                    | O => "150f4133679d4448aaa2174c945534bd"
                    | _ => "c392c27b6e3b4983925feeaa6c90dd68"
                    end)
          (fun _ => Answered (mkResponse 200 [] (Some recorded_answer))).

(** The output the notebook records under cell 2, line by line. *)
Definition recorded_output_2 : string :=
  lines ["{'participant_id': 'testuser',";
         " 'payload': [{'Actor': 'Royal Saudi Military',";
         "              'City': 'Al Qaţīf',";
         "              'Country': 'Saudi Arabia',";
         "              'Event_Date': '2019-08-22',";
         "              'Event_Subtype': 'Conflict',";
         "              'Event_Type': 'Military Activity',";
         "              'Latitude': 26.5208,";
         "              'Longitude': 50.0245,";
         "              'State': 'Eastern Province',";
         "              'Warning_ID': 'testuser150f4133679d4448aaa2174c945534bd'},";
         "             {'Actor': 'Royal Saudi Military',";
         "              'City': 'Al ‘Awāmīyah',";
         "              'Country': 'Saudi Arabia',";
         "              'Event_Date': '2019-08-24',";
         "              'Event_Subtype': 'Conflict',";
         "              'Event_Type': 'Military Activity',";
         "              'Latitude': 26.5936,";
         "              'Longitude': 49.9875,";
         "              'State': 'Eastern Province',";
         "              'Warning_ID': 'testuserc392c27b6e3b4983925feeaa6c90dd68'}]}"].

(** The same output with the two hex strings left open. *)
Definition recorded_text (hex_0 hex_1 : string) : string :=
  lines ["{'participant_id': 'testuser',";
         " 'payload': [{'Actor': 'Royal Saudi Military',";
         "              'City': 'Al Qaţīf',";
         "              'Country': 'Saudi Arabia',";
         "              'Event_Date': '2019-08-22',";
         "              'Event_Subtype': 'Conflict',";
         "              'Event_Type': 'Military Activity',";
         "              'Latitude': 26.5208,";
         "              'Longitude': 50.0245,";
         "              'State': 'Eastern Province',";
         "              'Warning_ID': 'testuser" ++ hex_0 ++ "'},";
         "             {'Actor': 'Royal Saudi Military',";
         "              'City': 'Al ‘Awāmīyah',";
         "              'Country': 'Saudi Arabia',";
         "              'Event_Date': '2019-08-24',";
         "              'Event_Subtype': 'Conflict',";
         "              'Event_Type': 'Military Activity',";
         "              'Latitude': 26.5936,";
         "              'Longitude': 49.9875,";
         "              'State': 'Eastern Province',";
         "              'Warning_ID': 'testuser" ++ hex_1 ++ "'}]}"].

(** The output it records under cell 3. *)
Definition recorded_output_3 : string :=
  lines ["{'Existing warnings updated': 0,";
         " 'Invalid warnings': 0,";
         " 'New warnings or versions inserted': 2,";
         " 'Total operations': 2,";
         " 'reason': None,";
         " 'result': 'ok'}"].

(** The structure of the output under cell 2, the two hex strings left
    open. *)
Definition recorded_structure (hex_0 hex_1 : string) : pyval :=
  VDict
    [("participant_id", VStr "testuser");
     ("payload",
      VList
        [VDict [("Actor", VStr "Royal Saudi Military");
                ("City", VStr "Al Qaţīf");
                ("Country", VStr "Saudi Arabia");
                ("Event_Date", VStr "2019-08-22");
                ("Event_Subtype", VStr "Conflict");
                ("Event_Type", VStr "Military Activity");
                ("Latitude", VFloat (mkFloat 265208 4));
                ("Longitude", VFloat (mkFloat 500245 4));
                ("State", VStr "Eastern Province");
                ("Warning_ID", VStr ("testuser" ++ hex_0))];
         VDict [("Actor", VStr "Royal Saudi Military");
                ("City", VStr "Al ‘Awāmīyah");
                ("Country", VStr "Saudi Arabia");
                ("Event_Date", VStr "2019-08-24");
                ("Event_Subtype", VStr "Conflict");
                ("Event_Type", VStr "Military Activity");
                ("Latitude", VFloat (mkFloat 265936 4));
                ("Longitude", VFloat (mkFloat 499875 4));
                ("State", VStr "Eastern Province");
                ("Warning_ID", VStr ("testuser" ++ hex_1))]])].

(** The request that cell 3 hands to [requests]: what [requests.post]
    prepares from [url], [headers] and [submission]. *)
Definition first_request (tok user : string) (sub : pydict) : request :=
  mkRequest "POST" (Url intake_url)
            [("x-api-key", user ++ ":" ++ tok); ("Content-Type", "application/json")]
            (Some (VDict sub)).


(** A request that follows a redirect. *)
Definition follows_redirect (r : request) : Prop :=
  exists base location, req_url r = Redirected base location.


(** The values printed, in order, and those printed after the first
    request. *)
Fixpoint printed (t : list event) : list pyval :=
  match t with
  | [] => []
  | EvPrint v :: t' => v :: printed t'
  | EvPost _ :: t' => printed t'
  end.

Fixpoint printed_after_request (t : list event) : list pyval :=
  match t with
  | [] => []
  | EvPost _ :: t' => printed t'
  | EvPrint _ :: t' => printed_after_request t'
  end.

(** An answer as the interface describes it: an object with [result]
    (["ok"] or ["error"]), [reason] (a string or null) and four integer
    counters. *)
Definition described_answer (v : pyval) : bool :=
  match v with
  | VDict d =>
      match dict_get "result" d with
      | Some (VStr r) => String.eqb r "ok" || String.eqb r "error"
      | _ => false
      end
      && match dict_get "reason" d with
         | Some (VStr _) => true
         | Some VNone => true
         | _ => false
         end
      && forallb (fun k => match dict_get k d with
                           | Some (VInt _) => true
                           | _ => false
                           end)
                 ["Total operations"; "New warnings or versions inserted";
                  "Existing warnings updated"; "Invalid warnings"]
  | _ => false
  end.

(** The answers the notebook lists under "Results", fields in the order
    written. *)
Definition answer (inserted : Z) (reason : pyval) (total updated invalid : Z)
           (result : string) : pyval :=
  VDict [("New warnings or versions inserted", VInt inserted);
         ("reason", reason);
         ("Total operations", VInt total);
         ("Existing warnings updated", VInt updated);
         ("Invalid warnings", VInt invalid);
         ("result", VStr result)].

Definition quoted (s : string) : string := String dquote (s ++ String dquote "").

Definition documented_answers : list pyval :=
  [answer 31 VNone 31 0 0 "ok";
   answer 0 (VStr ("Payload item 1: Cannot update " ++ quoted "Country" ++ " for "
                   ++ quoted "Military Activity" ++ " events")) 1 0 1 "error";
   answer 0 (VStr ("Payload item 1: Unknown event type "
                   ++ quoted "Not a Mercury Event Type")) 1 0 1 "error";
   answer 0 (VStr ("Payload item 4: Missing attribute " ++ quoted "Disease")) 4 0 4 "error";
   answer 3 (VStr "Payload item 1: Existing warnings can only be modified every 4 hours")
          4 0 1 "error";
   answer 0 (VStr ("Payload item 5: Value not in valid range for " ++ quoted "Case_Count"))
          5 0 5 "error"].

(** The answer it lists for a participant that does not match the key. *)
Definition mismatch_answer : pyval := VStr "Participant not matching".

(** Servers other than the recorded one, with the recorded UUIDs: one that
    answers the first request with a temporary redirect and the second with
    the recorded answer, one that answers with a page that is no JSON, one
    that cannot be reached, one that sends the recorded answer under status
    500, one that answers with the mismatch message. *)
Definition recorded_draws (n : nat) : string :=
  match n with
  | O => "150f4133679d4448aaa2174c945534bd"
  | _ => "c392c27b6e3b4983925feeaa6c90dd68"
  end.





Definition mismatch_world : world :=
  mkWorld recorded_draws (fun _ => Answered (mkResponse 200 [] (Some mismatch_answer))).

(** What cell 3 makes of the outcome of the call, after the events
    [before]: the parsed answer is printed when the call returns an answer
    with a JSON body; [wrap] builds the variables the cell leaves. *)
Definition after_call {A : Type} (wrap : response -> A) (before : list event)
           (r : run_result response) : run_result A :=
  match final r with
  | Returned resp =>
      match body_json resp with
      | Some v =>
          mkRun (before ++ trace r ++ [EvPrint v]) (Returned (wrap resp)) (draws_used r)
      | None => mkRun (before ++ trace r) (Raised JSONDecodeError) (draws_used r)
      end
  | Raised e => mkRun (before ++ trace r) (Raised e) (draws_used r)
  | Blocked => mkRun (before ++ trace r) Blocked (draws_used r)
  end.

(** The records of a submission's payload. *)
Definition payload_of (sub : pydict) : list pyval :=
  match dict_get "payload" sub with
  | Some (VList l) => l
  | _ => []
  end.

End Shape.
Export Shape.

(** ** Programs that stay on the machine *)

Module Offline.

(** A program with no [requests.post] in it, whatever the UUIDs drawn. *)
Inductive offline {A : Type} : prog A -> Prop :=
| offline_ret (a : A) : offline (Ret a)
| offline_raise (e : exn) : offline (Raise e)
| offline_uuid (k : string -> prog A) :
    (forall h, offline (k h)) -> offline (Uuid4Hex k)
| offline_print (v : pyval) (k : prog A) :
    offline k -> offline (Print v k).

(** Whether a run ended by returning. *)
Definition returned {A : Type} (o : outcome A) : bool :=
  match o with
  | Returned _ => true
  | Raised _ => false
  | Blocked => false
  end.

(** A dict without one of its keys. *)
Definition without_key (k : string) (d : pydict) : pydict :=
  filter (fun kv => negb (String.eqb (fst kv) k)) d.

(** The order in which [pprint] lists dict items: by key. *)
Definition key_le {V : Type} (a b : string * V) : Prop :=
  String.leb (fst a) (fst b) = true.

End Offline.
Export Offline.

(** * Properties *)

(** ** Strings and templates *)

Lemma append_empty_r (s : string) : s ++ "" = s.
Proof.
  induction s as [|c s IH]; simpl; [reflexivity | now rewrite IH].
Qed.

Lemma append_inj_l (p a b : string) : p ++ a = p ++ b -> a = b.
Proof.
  induction p as [|c p IH]; simpl; intros H.
  - exact H.
  - injection H as H. now apply IH.
Qed.

Lemma prefix_append (p s : string) : String.prefix p (p ++ s) = true.
Proof.
  induction p as [|c p IH]; simpl.
  - now destruct s.
  - destruct (ascii_dec c c) as [_|N]; [exact IH | now elim N].
Qed.

Lemma format_warn_id (u h : string) :
  Format.format "{0}{1}" [u; h] = Some (u ++ h).
Proof.
  cbv -[append]. now rewrite append_empty_r.
Qed.

Lemma format_api_key (u t : string) :
  Format.format "{0}:{1}" [u; t] = Some (u ++ ":" ++ t).
Proof.
  cbv -[append]. now rewrite append_empty_r.
Qed.

(** ** Running programs *)

Lemma run_bind {A B : Type} (p : prog A) (f : A -> prog B) (w : world) (n : nat) :
  run (bind p f) w n =
  match final (run p w n) with
  | Returned a =>
      let r := run (f a) w (draws_used (run p w n)) in
      mkRun (trace (run p w n) ++ trace r) (final r) (draws_used r)
  | Raised e => mkRun (trace (run p w n)) (Raised e) (draws_used (run p w n))
  | Blocked => mkRun (trace (run p w n)) Blocked (draws_used (run p w n))
  end.
Proof.
  revert n. induction p as [a|e|k IH|r k IH|v k IH]; intros n; cbn [bind run].
  - cbn. now destruct (run (f a) w n).
  - reflexivity.
  - apply IH.
  - destruct (transmit w r) as [e|e| |resp]; cbn; try reflexivity.
    rewrite IH. now destruct (final (run (k resp) w n)).
  - cbn. rewrite IH. now destruct (final (run k w n)).
Qed.

(** ** The cells *)

Lemma run_cell1 (tok user : string) (w : world) (n : nat) :
  run (cell1 tok user) w n =
  mkRun [] (Returned (mkCell1 tok user
              "https://87g554i96c.execute-api.us-east-1.amazonaws.com/Production/warning/intake"
              [("x-api-key", VStr (user ++ ":" ++ tok))])) n.
Proof.
  unfold cell1. rewrite format_api_key. reflexivity.
Qed.

(** Cell 2 always returns, after two draws and one print, and its variables
    have the values below. *)
Lemma run_cell2 (g : cell1_vars) (w : world) (n : nat) :
  exists g2 : cell2_vars,
    run (cell2 g) w n = mkRun [EvPrint (VDict (submission g2))] (Returned g2) (S (S n))
    /\ warn_id_0 g2 = userid g ++ draw w n
    /\ warn_id_1 g2 = userid g ++ draw w (S n)
    /\ warn_content_0 g2 =
         [("Actor", VStr "Royal Saudi Military"); ("City", VStr "Al Qaţīf");
          ("State", VStr "Eastern Province"); ("Country", VStr "Saudi Arabia");
          ("Latitude", VFloat (mkFloat 265208 4));
          ("Longitude", VFloat (mkFloat 500245 4));
          ("Event_Date", VStr "2019-08-22");
          ("Event_Type", VStr "Military Activity");
          ("Event_Subtype", VStr "Conflict");
          ("Warning_ID", VStr (warn_id_0 g2))]
    /\ warn_content_1 g2 =
         [("Actor", VStr "Royal Saudi Military"); ("City", VStr "Al ‘Awāmīyah");
          ("State", VStr "Eastern Province"); ("Country", VStr "Saudi Arabia");
          ("Latitude", VFloat (mkFloat 265936 4));
          ("Longitude", VFloat (mkFloat 499875 4));
          ("Event_Date", VStr "2019-08-24");
          ("Event_Type", VStr "Military Activity");
          ("Event_Subtype", VStr "Conflict");
          ("Warning_ID", VStr (warn_id_1 g2))]
    /\ submission g2 =
         [("participant_id", VStr (userid g));
          ("payload", VList [VDict (warn_content_0 g2); VDict (warn_content_1 g2)])].
Proof.
  unfold cell2.
  do 2 (cbn [uuid4_hex or_raise bind run]; rewrite format_warn_id).
  cbn.
  eexists (mkCell2 _ _ _ _ _ _ _ _ _ _ _ _ _ _ _ _ _ _ _ _).
  split; [reflexivity|]. cbn. repeat split; reflexivity.
Qed.

Lemma run_cells_1_2 (tok user : string) (w : world) (n : nat) :
  exists g2 : cell2_vars,
    run (cells_1_2 tok user) w n =
      mkRun [EvPrint (VDict (submission g2))] (Returned g2) (S (S n))
    /\ warn_id_0 g2 = user ++ draw w n
    /\ warn_id_1 g2 = user ++ draw w (S n)
    /\ submission g2 =
         [("participant_id", VStr user);
          ("payload", VList [VDict (warn_content_0 g2); VDict (warn_content_1 g2)])]
    /\ dict_get "Warning_ID" (warn_content_0 g2) = Some (VStr (warn_id_0 g2))
    /\ dict_get "Warning_ID" (warn_content_1 g2) = Some (VStr (warn_id_1 g2)).
Proof.
  unfold cells_1_2. rewrite run_bind, run_cell1.
  cbn [final trace draws_used app].
  destruct (run_cell2 (mkCell1 tok user
              "https://87g554i96c.execute-api.us-east-1.amazonaws.com/Production/warning/intake"
              [("x-api-key", VStr (user ++ ":" ++ tok))]) w n)
    as (g2 & Hrun & Hid0 & Hid1 & Hc0 & Hc1 & Hsub).
  exists g2. rewrite Hrun. cbn [final trace draws_used userid] in *.
  repeat split; try assumption.
  - rewrite Hc0. reflexivity.
  - rewrite Hc1. reflexivity.
Qed.

(** ** The submission *)

(** C1: the submission built by cells 1 and 2 has exactly the two keys
    [participant_id] and [payload]; the first is bound to [userid], the
    second to the list [[warn_content_0, warn_content_1]]. *)
Theorem submission_envelope (tok user : string) (w : world) (n : nat) :
  exists g2 : cell2_vars,
    final (run (cells_1_2 tok user) w n) = Returned g2
    /\ keys (submission g2) = ["participant_id"; "payload"]
    /\ dict_get "participant_id" (submission g2) = Some (VStr user)
    /\ dict_get "payload" (submission g2) =
         Some (VList [VDict (warn_content_0 g2); VDict (warn_content_1 g2)])
    /\ List.length (payload_of (submission g2)) = 2%nat.
Proof.
  destruct (run_cells_1_2 tok user w n) as (g2 & Hrun & _ & _ & Hsub & _).
  exists g2. rewrite Hrun, Hsub. cbn. repeat split; reflexivity.
Qed.

(** C2: each warning identifier is the user id followed by the hex string
    that [uuid4().hex] returned for it, and nothing else. *)
Theorem warn_id_is_concatenation (tok user : string) (w : world) (n : nat) :
  exists g2 : cell2_vars,
    final (run (cells_1_2 tok user) w n) = Returned g2
    /\ warn_id_0 g2 = user ++ draw w n
    /\ warn_id_1 g2 = user ++ draw w (S n).
Proof.
  destruct (run_cells_1_2 tok user w n) as (g2 & Hrun & Hid0 & Hid1 & _).
  exists g2. rewrite Hrun. auto.
Qed.

(** C8: in the submission, the [Warning_ID] of every payload record starts
    with the [participant_id]. *)
Theorem warning_id_has_participant_prefix (tok user : string) (w : world) (n : nat) :
  exists (g2 : cell2_vars) (pid : string),
    final (run (cells_1_2 tok user) w n) = Returned g2
    /\ dict_get "participant_id" (submission g2) = Some (VStr pid)
    /\ payload_of (submission g2) <> []
    /\ Forall (fun rec => exists d id,
                   rec = VDict d
                   /\ dict_get "Warning_ID" d = Some (VStr id)
                   /\ String.prefix pid id = true)
              (payload_of (submission g2)).
Proof.
  destruct (run_cells_1_2 tok user w n)
    as (g2 & Hrun & Hid0 & Hid1 & Hsub & Hw0 & Hw1).
  exists g2, user. rewrite Hrun, Hsub. cbn.
  repeat split; [discriminate|].
  repeat constructor.
  - exists (warn_content_0 g2), (warn_id_0 g2).
    repeat split; [exact Hw0|]. rewrite Hid0. apply prefix_append.
  - exists (warn_content_1 g2), (warn_id_1 g2).
    repeat split; [exact Hw1|]. rewrite Hid1. apply prefix_append.
Qed.

(** C10: when the two hex strings drawn differ, so do the two warning
    identifiers. *)
Theorem distinct_draws_distinct_ids (tok user : string) (w : world) (n : nat) :
  draw w n <> draw w (S n) ->
  exists g2 : cell2_vars,
    final (run (cells_1_2 tok user) w n) = Returned g2
    /\ warn_id_0 g2 <> warn_id_1 g2.
Proof.
  intros Hneq.
  destruct (run_cells_1_2 tok user w n) as (g2 & Hrun & Hid0 & Hid1 & _).
  exists g2. rewrite Hrun, Hid0, Hid1. split; [reflexivity|].
  intros Heq. apply Hneq. exact (append_inj_l _ _ _ Heq).
Qed.

Lemma distinct_draws_distinct_ids_witness :
  exists g2 : cell2_vars,
    final (run (cells_1_2 "mysecretkey" "testuser") recorded_world 0) = Returned g2
    /\ warn_id_0 g2 <> warn_id_1 g2.
Proof.
  apply (distinct_draws_distinct_ids "mysecretkey" "testuser" recorded_world 0).
  simpl. discriminate.
Defined.

(** C3, as worded: the claim fails on the notebook's own run, whose records
    have no field beside the common ones, and no [Case_Count]. *)
Lemma payload_record_without_domain_attribute :
  exists g2 : cell2_vars,
    final (run (cells_1_2 "mysecretkey" "testuser") recorded_world 0) = Returned g2
    /\ exists d : pydict,
         In (VDict d) (payload_of (submission g2))
         /\ described_record (VDict d) = false
         /\ dict_get "Case_Count" d = None.
Proof.
  eexists. split; [reflexivity|].
  eexists. split; [left; reflexivity|]. split; reflexivity.
Qed.

(** C3, amended: every record of the payload is a flat mapping whose keys
    are exactly the ten common fields (actor, the five location fields,
    event date, event type and subtype, identifier); it has no
    domain-specific attribute. *)
Theorem payload_records_have_common_fields (tok user : string) (w : world) (n : nat) :
  exists g2 : cell2_vars,
    final (run (cells_1_2 tok user) w n) = Returned g2
    /\ payload_of (submission g2) = [VDict (warn_content_0 g2); VDict (warn_content_1 g2)]
    /\ Forall (fun rec => exists d,
                   rec = VDict d
                   /\ is_flat d = true
                   /\ keys d = common_fields
                   /\ has_fields common_fields d = true
                   /\ has_domain_attribute d = false)
              (payload_of (submission g2)).
Proof.
  unfold cells_1_2. rewrite run_bind, run_cell1.
  cbn [final trace draws_used app].
  match goal with
  | |- context [run (cell2 ?g) w n] =>
      destruct (run_cell2 g w n) as (g2 & Hrun & _ & _ & Hc0 & Hc1 & Hsub)
  end.
  exists g2. rewrite Hrun, Hsub. cbn [final payload_of dict_get String.eqb Ascii.eqb Bool.eqb].
  repeat split.
  repeat constructor.
  - exists (warn_content_0 g2). rewrite Hc0. repeat split; reflexivity.
  - exists (warn_content_1 g2). rewrite Hc1. repeat split; reflexivity.
Qed.

(** ** The request *)

Lemma posted_app (a b : list event) : posted (a ++ b) = (posted a ++ posted b)%list.
Proof.
  induction a as [|[r|v] a IH]; cbn [app posted]; [reflexivity | now rewrite IH | exact IH].
Qed.

Lemma posted_map_EvPost (l : list request) : posted (map EvPost l) = l.
Proof.
  induction l as [|r l IH]; cbn [map posted]; [reflexivity | now rewrite IH].
Qed.

Lemma printed_map_EvPost (l : list request) : printed (map EvPost l) = [].
Proof.
  induction l as [|r l IH]; cbn [map printed]; [reflexivity | exact IH].
Qed.

Lemma printed_app (a b : list event) : printed (a ++ b) = (printed a ++ printed b)%list.
Proof.
  induction a as [|[r|v] a IH]; cbn [app printed]; [reflexivity | exact IH | now rewrite IH].
Qed.

(** *** Sending, and following redirects *)

Lemma send_following_unfold (left : nat) (req : request) (w : world) (m : nat) :
  run (send_following left req) w m =
  match transmit w req with
  | NotSent e => mkRun [] (Raised e) m
  | Lost e => mkRun [EvPost req] (Raised e) m
  | Silent => mkRun [EvPost req] Blocked m
  | Answered resp =>
      match redirect_target resp with
      | NoRedirect => mkRun [EvPost req] (Returned resp) m
      | BadLocation => mkRun [EvPost req] (Raised UnicodeDecodeError) m
      | Target location =>
          match left with
          | O => mkRun [EvPost req] (Raised TooManyRedirects) m
          | S left' =>
              emit (EvPost req) (run (send_following left' (redirected req resp location)) w m)
          end
      end
  end.
Proof.
  destruct left; cbn [send_following run];
    (destruct (transmit w req) as [e|e| |resp]; [reflexivity..|]);
    destruct (redirect_target resp); reflexivity.
Qed.

(** The call writes requests and nothing else, at most one more than the
    redirects it may follow, and draws no UUID. *)
Lemma send_following_trace (left : nat) (req : request) (w : world) (m : nat) :
  trace (run (send_following left req) w m) =
    map EvPost (posted (trace (run (send_following left req) w m)))
  /\ draws_used (run (send_following left req) w m) = m
  /\ (List.length (posted (trace (run (send_following left req) w m))) <= S left)%nat.
Proof.
  revert req. induction left as [|left IH]; intros req; rewrite send_following_unfold;
    (destruct (transmit w req) as [e|e| |resp]; [cbn; repeat split; lia..|]);
    (destruct (redirect_target resp) as [| |loc]; [cbn; repeat split; lia..|]).
  - cbn. repeat split; lia.
  - destruct (IH (redirected req resp loc)) as (Ht & Hd & Hl).
    cbn [emit trace draws_used posted map List.length].
    rewrite <- Ht. repeat split; [exact Hd | lia].
Qed.

(** The first request written is the one handed in; the others follow
    redirects. *)
Lemma send_following_first (left : nat) (req : request) (w : world) (m : nat) :
  match transmit w req with
  | NotSent e => run (send_following left req) w m = mkRun [] (Raised e) m
  | _ => exists rest,
           posted (trace (run (send_following left req) w m)) = req :: rest
           /\ Forall follows_redirect rest
  end.
Proof.
  assert (Hall : forall k r, follows_redirect r ->
                   Forall follows_redirect (posted (trace (run (send_following k r) w m)))).
  { induction k as [|k IH]; intros r Hr; rewrite send_following_unfold;
      (destruct (transmit w r) as [e|e| |resp]; [cbn; auto..|]);
      (destruct (redirect_target resp) as [| |loc]; [cbn; auto..|]).
    - cbn. auto.
    - cbn [emit trace posted]. constructor; [exact Hr|].
      apply IH. unfold follows_redirect, redirected. cbn [req_url]. eauto. }
  rewrite send_following_unfold.
  destruct (transmit w req) as [e|e| |resp]; [reflexivity | cbn; eauto..|].
  destruct (redirect_target resp) as [| |loc]; [cbn; eauto..|].
  destruct left as [|left]; [cbn; eauto|].
  cbn [emit trace posted]. eexists. split; [reflexivity|].
  apply Hall. unfold follows_redirect, redirected. cbn [req_url]. eauto.
Qed.

(** What every redirect keeps holds of every request written. *)
Lemma send_following_invariant (P : request -> Prop) (w : world) (m : nat) :
  (forall r resp loc, P r -> P (redirected r resp loc)) ->
  forall (left : nat) (req : request),
    P req -> Forall P (posted (trace (run (send_following left req) w m))).
Proof.
  intros Hkeep. induction left as [|left IH]; intros req Hreq;
    rewrite send_following_unfold;
    (destruct (transmit w req) as [e|e| |resp]; [cbn; auto..|]);
    (destruct (redirect_target resp) as [| |loc]; [cbn; auto..|]).
  - cbn. auto.
  - cbn [emit trace posted]. constructor; [exact Hreq|]. apply IH, Hkeep, Hreq.
Qed.

Lemma get_header_remove_other (name other : string) (hs : list (string * string)) :
  String.eqb (lower other) (lower name) = false ->
  get_header name (remove_header other hs) = get_header name hs.
Proof.
  intros Hne. induction hs as [|[k v] hs IH]; cbn [remove_header filter get_header fst];
    [reflexivity|].
  destruct (String.eqb (lower k) (lower other)) eqn:E; cbn [negb].
  - apply String.eqb_eq in E.
    destruct (String.eqb (lower k) (lower name)) eqn:E'; [|exact IH].
    apply String.eqb_eq in E'. rewrite <- E, E', String.eqb_refl in Hne. discriminate.
  - cbn [get_header]. destruct (String.eqb (lower k) (lower name)); [reflexivity | exact IH].
Qed.

(** A redirect keeps the API key, and leaves the body as it is or drops
    it. *)
Lemma redirected_keeps_api_key (r : request) (resp : response) (loc : string) :
  get_header "x-api-key" (req_headers (redirected r resp loc))
  = get_header "x-api-key" (req_headers r).
Proof.
  unfold redirected. cbn [req_headers].
  destruct (keeps_body (status_code resp));
    now rewrite !get_header_remove_other by reflexivity.
Qed.

Lemma redirected_body (r : request) (resp : response) (loc : string) :
  req_json (redirected r resp loc) = req_json r
  \/ req_json (redirected r resp loc) = None.
Proof.
  unfold redirected. cbn [req_json]. destruct (keeps_body (status_code resp)); auto.
Qed.

(** *** Cell 3 and the whole notebook *)

Lemma first_request_wire (tok user : string) (sub : pydict) :
  wire_error (req_headers (first_request tok user sub)) = value_error (user ++ ":" ++ tok).
Proof.
  unfold first_request. cbn [req_headers wire_error].
  change (name_error "x-api-key") with (@None exn).
  change (name_error "Content-Type") with (@None exn).
  change (value_error "application/json") with (@None exn).
  now destruct (value_error (user ++ ":" ++ tok)).
Qed.

(** With a valid key, what becomes of the first request is up to the
    server; with a key that cannot be encoded, nothing is written. *)
Lemma first_request_transmit (tok user : string) (sub : pydict) (w : world) :
  match value_error (user ++ ":" ++ tok) with
  | None => transmit w (first_request tok user sub) = server w (first_request tok user sub)
  | Some _ => exists e, transmit w (first_request tok user sub) = NotSent e
  end.
Proof.
  unfold transmit. rewrite first_request_wire.
  destruct (value_error (user ++ ":" ++ tok)) as [e'|]; [|reflexivity].
  destruct (server w _); eauto.
Qed.

Lemma run_cell3 (g1 : cell1_vars) (g2 : cell2_vars) (w : world) (n : nat) (key : string) :
  headers g1 = [("x-api-key", VStr key)] ->
  run (cell3 g1 g2) w n =
  if requests_value_ok key then
    after_call mkCell3 []
      (run (send_following max_redirects
              (mkRequest "POST" (Url (url g1))
                         [("x-api-key", key); ("Content-Type", "application/json")]
                         (Some (VDict (submission g2))))) w n)
  else mkRun [] (Raised InvalidHeader) n.
Proof.
  intros Hh. unfold cell3, requests_post. rewrite Hh.
  cbn [header_items option_map or_raise bind forallb snd].
  rewrite andb_true_r.
  destruct (requests_value_ok key); [|reflexivity].
  change (prepare_headers [("x-api-key", key)])
    with [("x-api-key", key); ("Content-Type", "application/json")].
  rewrite run_bind. unfold after_call, response_json, pprint.
  destruct (final (run (send_following max_redirects _) w n)) as [resp|e|];
    cbn [app]; try reflexivity.
  rewrite run_bind. destruct (body_json resp) as [v|]; cbn; [|now rewrite app_nil_r].
  reflexivity.
Qed.

(** The whole notebook: the submission is built and printed, then the key
    is checked and the call made. *)
Lemma run_notebook (tok user : string) (w : world) (n : nat) :
  exists g2 : cell2_vars,
    run (cells_1_2 tok user) w n =
      mkRun [EvPrint (VDict (submission g2))] (Returned g2) (S (S n))
    /\ dict_get "participant_id" (submission g2) = Some (VStr user)
    /\ run (notebook tok user) w n =
       if requests_value_ok (user ++ ":" ++ tok) then
         after_call (fun resp =>
                       mkNamespace
                         (mkCell1 tok user intake_url
                                  [("x-api-key", VStr (user ++ ":" ++ tok))])
                         g2 (mkCell3 resp))
                    [EvPrint (VDict (submission g2))]
                    (run (send_following max_redirects
                            (first_request tok user (submission g2))) w (S (S n)))
       else mkRun [EvPrint (VDict (submission g2))] (Raised InvalidHeader) (S (S n)).
Proof.
  unfold notebook, cells_1_2. rewrite !run_bind, !run_cell1.
  cbn [final trace draws_used app].
  fold intake_url.
  set (g1 := mkCell1 tok user intake_url [("x-api-key", VStr (user ++ ":" ++ tok))]).
  destruct (run_cell2 g1 w n) as (g2 & Hrun & _ & _ & _ & _ & Hsub).
  exists g2. rewrite !run_bind, !Hrun. cbn [final trace draws_used app].
  split; [reflexivity|]. split; [now rewrite Hsub|].
  rewrite run_bind, (run_cell3 g1 g2 w (S (S n)) (user ++ ":" ++ tok) eq_refl).
  cbn [url g1]. fold (first_request tok user (submission g2)).
  destruct (requests_value_ok (user ++ ":" ++ tok)); [|reflexivity].
  unfold after_call.
  destruct (final (run (send_following max_redirects _) w (S (S n)))) as [resp|e|];
    cbn; try reflexivity.
  destruct (body_json resp) as [v|]; cbn; [|reflexivity].
  rewrite app_nil_r. reflexivity.
Qed.

Lemma after_call_posted {A : Type} (wrap : response -> A) (before : list event)
      (r : run_result response) :
  posted (trace (after_call wrap before r)) = (posted before ++ posted (trace r))%list.
Proof.
  unfold after_call. destruct (final r) as [resp|e|]; [destruct (body_json resp)|..];
    cbn [trace]; rewrite ?posted_app; cbn [posted]; now rewrite ?app_nil_r.
Qed.

(** The requests of a run of the notebook are those of the call, if it is
    made. *)
Lemma notebook_posted (tok user : string) (w : world) (n : nat) :
  exists g2 : cell2_vars,
    run (cells_1_2 tok user) w n =
      mkRun [EvPrint (VDict (submission g2))] (Returned g2) (S (S n))
    /\ dict_get "participant_id" (submission g2) = Some (VStr user)
    /\ posted (trace (run (notebook tok user) w n)) =
       if requests_value_ok (user ++ ":" ++ tok) then
         posted (trace (run (send_following max_redirects
                               (first_request tok user (submission g2))) w (S (S n))))
       else [].
Proof.
  destruct (run_notebook tok user w n) as (g2 & Hrun & Hpid & HN).
  exists g2. split; [exact Hrun|]. split; [exact Hpid|].
  rewrite HN. destruct (requests_value_ok (user ++ ":" ++ tok)); [|reflexivity].
  now rewrite after_call_posted.
Qed.

(** Whether anything is written, and what comes first. *)
Lemma notebook_first_request (tok user : string) (w : world) (n : nat) :
  exists g2 : cell2_vars,
    run (cells_1_2 tok user) w n =
      mkRun [EvPrint (VDict (submission g2))] (Returned g2) (S (S n))
    /\ dict_get "participant_id" (submission g2) = Some (VStr user)
    /\ if valid_header_value (user ++ ":" ++ tok) then
         match server w (first_request tok user (submission g2)) with
         | NotSent _ => posted (trace (run (notebook tok user) w n)) = []
         | _ => exists rest,
                  posted (trace (run (notebook tok user) w n)) =
                    first_request tok user (submission g2) :: rest
                  /\ Forall follows_redirect rest
         end
       else posted (trace (run (notebook tok user) w n)) = [].
Proof.
  destruct (notebook_posted tok user w n) as (g2 & Hrun & Hpid & Hposted).
  exists g2. split; [exact Hrun|]. split; [exact Hpid|].
  rewrite Hposted. unfold valid_header_value.
  destruct (requests_value_ok (user ++ ":" ++ tok)); cbn [andb]; [|reflexivity].
  pose proof (send_following_first max_redirects (first_request tok user (submission g2))
                                   w (S (S n))) as Hfirst.
  pose proof (first_request_transmit tok user (submission g2) w) as Htr.
  destruct (value_error (user ++ ":" ++ tok)) as [e'|].
  - destruct Htr as (e & Htr). rewrite Htr in Hfirst. now rewrite Hfirst.
  - rewrite Htr in Hfirst.
    destruct (server w (first_request tok user (submission g2))); try exact Hfirst.
    now rewrite Hfirst.
Qed.

(** Every request of a run carries the API key and, if it has a body, the
    submission. *)
Lemma notebook_requests (tok user : string) (w : world) (n : nat) :
  exists g2 : cell2_vars,
    run (cells_1_2 tok user) w n =
      mkRun [EvPrint (VDict (submission g2))] (Returned g2) (S (S n))
    /\ dict_get "participant_id" (submission g2) = Some (VStr user)
    /\ Forall (fun r =>
                 get_header "x-api-key" (req_headers r) = Some (user ++ ":" ++ tok)
                 /\ (req_json r = Some (VDict (submission g2)) \/ req_json r = None))
              (posted (trace (run (notebook tok user) w n))).
Proof.
  destruct (notebook_posted tok user w n) as (g2 & Hrun & Hpid & Hposted).
  exists g2. split; [exact Hrun|]. split; [exact Hpid|].
  rewrite Hposted. destruct (requests_value_ok (user ++ ":" ++ tok)); [|constructor].
  apply send_following_invariant.
  - intros r resp loc [Hkey Hbody]. split.
    + now rewrite redirected_keeps_api_key.
    + destruct (redirected_body r resp loc) as [-> | ->]; auto.
  - split; [reflexivity | now left].
Qed.

(** An answer the call returns is the server's answer to one of the
    requests written. *)
Lemma send_following_returned (left : nat) (req : request) (w : world) (m : nat)
      (resp : response) :
  final (run (send_following left req) w m) = Returned resp ->
  exists r, In r (posted (trace (run (send_following left req) w m)))
            /\ server w r = Answered resp.
Proof.
  assert (Htr : forall r x, transmit w r = Answered x -> server w r = Answered x).
  { intros r x. unfold transmit. destruct (wire_error (req_headers r)); [|auto].
    destruct (server w r); discriminate. }
  revert req. induction left as [|left IH]; intros req; rewrite send_following_unfold;
    destruct (transmit w req) as [e|e| |x] eqn:E; cbn; try discriminate;
    destruct (redirect_target x) as [| |loc]; cbn; try discriminate.
  - intros H. injection H as ->. eauto.
  - intros H. injection H as ->. eauto.
  - intros H. destruct (IH _ H) as (r & Hin & Hr). eauto.
Qed.





(** The recorded run: the submission is printed, posted, and the answer
    printed. *)
Example recorded_run :
  exists g2 : cell2_vars,
    final (run (cells_1_2 "mysecretkey" "testuser") recorded_world 0) = Returned g2
    /\ trace (run (notebook "mysecretkey" "testuser") recorded_world 0) =
         [EvPrint (VDict (submission g2));
          EvPost (first_request "mysecretkey" "testuser" (submission g2));
          EvPrint recorded_answer].
Proof.
  eexists. split; reflexivity.
Qed.

(** ** The answer *)

(** C7, as worded: the answer the notebook lists for a participant that
    does not match the key is a bare string; the script prints it like any
    other, and it is no object with the six fields. *)
Lemma bare_string_answer_is_printed :
  printed_after_request (trace (run (notebook "mysecretkey" "testuser") mismatch_world 0))
    = [mismatch_answer]
  /\ described_answer mismatch_answer = false.
Proof.
  split; vm_compute; reflexivity.
Qed.

(** C7, amended: what the script prints after its request is the JSON body
    of the answer that [requests.post] returned, an answer of the server,
    unchanged and unchecked, and nothing is printed when the call does not
    return such an answer.  The answer the notebook records and the six
    objects it lists have the fields [result] (["ok"] or ["error"]), [reason]
    (a string or null) and the four integer counters; the mismatch message it
    lists has not. *)
Theorem printed_answer_is_servers_answer (tok user : string) (w : world) (n : nat) :
  match final (run (notebook tok user) w n) with
  | Returned ns =>
      exists (v : pyval) (req : request),
        body_json (result (vars3 ns)) = Some v
        /\ printed_after_request (trace (run (notebook tok user) w n)) = [v]
        /\ In req (posted (trace (run (notebook tok user) w n)))
        /\ server w req = Answered (result (vars3 ns))
  | _ => printed_after_request (trace (run (notebook tok user) w n)) = []
  end
  /\ forallb described_answer (recorded_answer :: documented_answers) = true
  /\ described_answer mismatch_answer = false.
Proof.
  split; [|split; vm_compute; reflexivity].
  destruct (run_notebook tok user w n) as (g2 & _ & _ & HN).
  rewrite HN. clear HN.
  destruct (requests_value_ok (user ++ ":" ++ tok)); [|reflexivity].
  set (R := run (send_following max_redirects (first_request tok user (submission g2)))
                w (S (S n))).
  destruct (send_following_trace max_redirects (first_request tok user (submission g2))
                                 w (S (S n))) as (Ht & _).
  pose proof (send_following_returned max_redirects
                (first_request tok user (submission g2)) w (S (S n))) as Hret.
  fold R in Ht, Hret.
  assert (Hafter : forall extra,
             printed_after_request (EvPrint (VDict (submission g2)) :: trace R ++ extra)
             = match posted (trace R) with
               | [] => printed_after_request extra
               | _ :: _ => printed extra
               end).
  { intros extra. rewrite Ht. cbn [printed_after_request].
    destruct (posted (trace R)) as [|r l]; cbn [map app printed_after_request];
      [reflexivity|]. now rewrite printed_app, printed_map_EvPost. }
  unfold after_call.
  destruct (final R) as [resp|e|] eqn:EF.
  - destruct (Hret resp eq_refl) as (req & Hin & Hsrv).
    destruct (body_json resp) as [v|] eqn:EB; cbn [final trace vars3 result app].
    + exists v, req. cbn [posted]. rewrite posted_app, Hafter. cbn [posted].
      rewrite app_nil_r. destruct (posted (trace R)); [destruct Hin|].
      repeat split; auto.
    + specialize (Hafter []). rewrite app_nil_r in Hafter. rewrite Hafter.
      now destruct (posted (trace R)).
  - cbn [final trace app]. specialize (Hafter []). rewrite app_nil_r in Hafter.
    rewrite Hafter. now destruct (posted (trace R)).
  - cbn [final trace app]. specialize (Hafter []). rewrite app_nil_r in Hafter.
    rewrite Hafter. now destruct (posted (trace R)).
Qed.

(** ** The secret token *)

Lemma cell2_reads_userid_only (g g' : cell1_vars) :
  userid g = userid g' -> cell2 g = cell2 g'.
Proof.
  intros H. unfold cell2. rewrite H. reflexivity.
Qed.

Lemma cells_1_2_ignore_token (tok1 tok2 user : string) (w : world) (n : nat) :
  run (cells_1_2 tok1 user) w n = run (cells_1_2 tok2 user) w n.
Proof.
  unfold cells_1_2. rewrite !run_bind, !run_cell1.
  cbn [final trace draws_used app].
  match goal with
  | |- context [cell2 ?a] =>
      match goal with
      | |- _ = ?rhs =>
          match rhs with
          | context [cell2 ?b] =>
              now rewrite (cell2_reads_userid_only a b eq_refl)
          end
      end
  end.
Qed.

(** C9: two runs that differ in the secret token alone build the same
    submission (indeed the same values for all variables of cell 2); every
    request either run writes has that submission or nothing as its body and
    carries the run's own token in [x-api-key] only: the first requests of the
    two runs agree in method, URL, body and every header but [x-api-key]. *)
Theorem secret_token_only_in_api_key (tok1 tok2 user : string) (w : world) (n : nat) :
  exists g2 : cell2_vars,
    final (run (cells_1_2 tok1 user) w n) = Returned g2
    /\ final (run (cells_1_2 tok2 user) w n) = Returned g2
    /\ Forall (fun r =>
                 (req_json r = Some (VDict (submission g2)) \/ req_json r = None)
                 /\ get_header "x-api-key" (req_headers r) = Some (user ++ ":" ++ tok1))
              (posted (trace (run (notebook tok1 user) w n)))
    /\ Forall (fun r =>
                 (req_json r = Some (VDict (submission g2)) \/ req_json r = None)
                 /\ get_header "x-api-key" (req_headers r) = Some (user ++ ":" ++ tok2))
              (posted (trace (run (notebook tok2 user) w n)))
    /\ req_method (first_request tok1 user (submission g2))
       = req_method (first_request tok2 user (submission g2))
    /\ req_url (first_request tok1 user (submission g2))
       = req_url (first_request tok2 user (submission g2))
    /\ req_json (first_request tok1 user (submission g2))
       = req_json (first_request tok2 user (submission g2))
    /\ other_headers (first_request tok1 user (submission g2))
       = other_headers (first_request tok2 user (submission g2))
    /\ match posted (trace (run (notebook tok1 user) w n)) with
       | r1 :: _ => r1 = first_request tok1 user (submission g2)
       | [] => True
       end
    /\ match posted (trace (run (notebook tok2 user) w n)) with
       | r2 :: _ => r2 = first_request tok2 user (submission g2)
       | [] => True
       end.
Proof.
  destruct (notebook_requests tok1 user w n) as (g2 & Hrun1 & _ & Hall1).
  destruct (notebook_requests tok2 user w n) as (g2' & Hrun2 & _ & Hall2).
  assert (Hg : g2' = g2).
  { rewrite (cells_1_2_ignore_token tok1 tok2) in Hrun1. rewrite Hrun1 in Hrun2.
    now injection Hrun2. }
  subst g2'.
  assert (Hhead : forall tok,
             match posted (trace (run (notebook tok user) w n)) with
             | r :: _ => r = first_request tok user (submission g2)
             | [] => True
             end).
  { intros tok. destruct (notebook_first_request tok user w n) as (x & Hx & _ & Hfirst).
    assert (x = g2) as ->.
    { rewrite (cells_1_2_ignore_token tok tok1), Hrun1 in Hx. now injection Hx. }
    destruct (valid_header_value (user ++ ":" ++ tok)); [|now rewrite Hfirst].
    destruct (server w (first_request tok user (submission g2)));
      try (destruct Hfirst as (rest & -> & _); reflexivity).
    now rewrite Hfirst. }
  exists g2. rewrite Hrun1, Hrun2. cbn [final].
  split; [reflexivity|]. split; [reflexivity|].
  split; [eapply Forall_impl; [|exact Hall1]; cbn; tauto|].
  split; [eapply Forall_impl; [|exact Hall2]; cbn; tauto|].
  do 4 (split; [reflexivity|]).
  split; apply Hhead.
Qed.

(** ** The printed output *)

(** The model of [pprint] gives the text the notebook records under cell 3
    for the answer it got. *)
Example recorded_answer_text : pprint_text recorded_answer = Some recorded_output_3.
Proof. vm_compute. reflexivity. Qed.

(** *** Strings that [repr] only quotes *)

Lemma append_assoc (a b c : string) : (a ++ b) ++ c = a ++ b ++ c.
Proof.
  induction a as [|x a IH]; cbn [append]; [reflexivity | now rewrite IH].
Qed.

Lemma plain_char_facts (c : ascii) :
  plain_char c = true ->
  (N_of_ascii c <? 128)%N = true
  /\ escape_char "'" c = String c ""
  /\ Ascii.eqb "'" c = false
  /\ ((128 <=? N_of_ascii c) && (N_of_ascii c <? 192))%N = false.
Proof.
  destruct c as [[] [] [] [] [] [] [] []]; intros H; try discriminate H;
    repeat split; reflexivity.
Qed.

Lemma decode_plain (s : string) :
  plain s = true ->
  exists cps,
    decode_utf8 s 0 0 = Some cps
    /\ forallb (fun cp => (cp <? 128)%N || printable cp) cps = true.
Proof.
  induction s as [|c s IH]; cbn [plain]; intros H.
  - exists []. auto.
  - apply andb_prop in H as [Hc Hs]. destruct (IH Hs) as (cps & Hd & Hp).
    destruct (plain_char_facts c Hc) as (Hlt & _).
    cbn [decode_utf8]. rewrite Hlt, Hd. exists (N_of_ascii c :: cps).
    cbn [option_map forallb]. rewrite Hlt, Hp. auto.
Qed.

Lemma escape_plain (s : string) : plain s = true -> escape "'" s = s.
Proof.
  induction s as [|c s IH]; cbn [escape plain]; intros H; [reflexivity|].
  apply andb_prop in H as [Hc Hs]. destruct (plain_char_facts c Hc) as (_ & He & _).
  rewrite He, IH by assumption. reflexivity.
Qed.

Lemma contains_plain (s : string) : plain s = true -> contains "'" s = false.
Proof.
  induction s as [|c s IH]; cbn [contains plain]; intros H; [reflexivity|].
  apply andb_prop in H as [Hc Hs].
  destruct (plain_char_facts c Hc) as (_ & _ & He & _).
  rewrite He, IH by assumption. reflexivity.
Qed.

Lemma py_len_plain (s : string) : plain s = true -> py_len s = Z.of_nat (String.length s).
Proof.
  induction s as [|c s IH]; intros H; [reflexivity|].
  cbn [plain] in H. apply andb_prop in H as [Hc Hs].
  destruct (plain_char_facts c Hc) as (_ & _ & _ & He).
  cbn [py_len String.length]. rewrite He, IH by assumption. lia.
Qed.

Lemma py_len_app (a b : string) : py_len (a ++ b) = (py_len a + py_len b)%Z.
Proof.
  induction a as [|c a IH]; [reflexivity|].
  cbn [append py_len]. rewrite IH. lia.
Qed.

Lemma str_repr_plain (s : string) :
  plain s = true -> str_repr s = Some ("'" ++ s ++ "'").
Proof.
  intros H. unfold str_repr, code_points.
  destruct (decode_plain s H) as (cps & -> & ->).
  rewrite contains_plain, escape_plain by assumption. reflexivity.
Qed.

Lemma hex_plain (s : string) : all_hex s = true -> plain s = true.
Proof.
  induction s as [|c s IH]; cbn [all_hex plain]; intros H; [reflexivity|].
  apply andb_prop in H as [Hc Hs]. rewrite (IH Hs), andb_true_r.
  destruct c as [[] [] [] [] [] [] [] []]; try discriminate Hc; reflexivity.
Qed.

(** *** Layout *)

(** A value whose one-line form fits is written on one line. *)
Lemma format_fits (v : pyval) (rep : string) (i a : Z) :
  safe_repr v = Some rep ->
  (py_len rep <=? width - i - a)%Z = true ->
  format_ v i a = Some rep.
Proof.
  intros Hr Hw. destruct v; cbn [format_]; rewrite Hr, Hw; reflexivity.
Qed.

(** A warning identifier is written in quotes and takes 42 columns. *)
Lemma warning_id_repr (h : string) (i a : Z) :
  hex_token h = true -> (i + a <= 38)%Z ->
  safe_repr (VStr ("testuser" ++ h)) = Some ("'testuser" ++ h ++ "'")
  /\ py_len ("'testuser" ++ h ++ "'") = 42%Z
  /\ format_ (VStr ("testuser" ++ h)) i a = Some ("'testuser" ++ h ++ "'").
Proof.
  intros Hh Hia. apply andb_prop in Hh as [Hl Hx]. apply Nat.eqb_eq in Hl.
  assert (Hp : plain ("testuser" ++ h) = true) by (cbn; now apply hex_plain).
  assert (Hr : safe_repr (VStr ("testuser" ++ h)) = Some ("'testuser" ++ h ++ "'")).
  { cbn [safe_repr]. rewrite (str_repr_plain _ Hp). reflexivity. }
  assert (Hn : py_len ("'testuser" ++ h ++ "'") = 42%Z).
  { rewrite !py_len_app, (py_len_plain h (hex_plain h Hx)), Hl. reflexivity. }
  repeat split; try assumption.
  apply format_fits; [exact Hr|]. rewrite Hn. apply Z.leb_le. unfold width. lia.
Qed.

(** Evaluation of the layout on values with an unknown part: the closed
    calls are computed, the others are left for rewriting. *)
Ltac has_var t := match t with context [?v] => is_var v end.
Ltac ground t := tryif has_var t then fail else idtac.

Ltac eval_closed :=
  repeat match goal with
         | |- context [str_repr ?s] =>
             ground s;
             let r := eval vm_compute in (str_repr s) in
             change (str_repr s) with r
         | |- context [py_len ?s] =>
             ground s;
             let r := eval vm_compute in (py_len s) in
             change (py_len s) with r
         | |- context [Z.leb ?x ?y] =>
             ground x; ground y;
             let r := eval vm_compute in (Z.leb x y) in
             change (Z.leb x y) with r
         | |- context [Z.add ?x ?y] =>
             ground x; ground y;
             let r := eval vm_compute in (Z.add x y) in
             change (Z.add x y) with r
         | |- context [Z.sub ?x ?y] =>
             ground x; ground y;
             let r := eval vm_compute in (Z.sub x y) in
             change (Z.sub x y) with r
         end.

Ltac crunch :=
  repeat (progress (cbn -[str_repr float_repr int_repr py_len append
                          Z.leb Z.add Z.sub Z.to_nat];
                    eval_closed)).

Ltac record_layout Hr Hn Hf :=
  match goal with
  | |- safe_repr ?r = Some ?line /\ _ =>
      assert (Hline : safe_repr r = Some line)
        by (crunch; rewrite Hr; crunch; rewrite ?append_assoc; reflexivity);
      assert (Hwide : (80 < py_len line)%Z)
        by (rewrite !py_len_app, Hn; vm_compute; reflexivity);
      split; [exact Hline | split; [exact Hwide |]];
      cbn [format_]; rewrite Hline;
      replace (py_len line <=? width - 13 - _)%Z with false
        by (symmetry; apply Z.leb_gt; unfold width; lia);
      crunch; rewrite Hf; crunch; rewrite ?append_assoc; reflexivity
  end.

(** The first record, its identifier entry [v] written as [rep]: its
    one-line form, which is too wide, and its layout at column 13. *)
Lemma record_0_layout (v : pyval) (rep : string) :
  safe_repr v = Some rep ->
  py_len rep = 42%Z ->
  format_ v 28 2 = Some rep ->
  let r := VDict [("Actor", VStr "Royal Saudi Military"); ("City", VStr "Al Qaţīf");
                  ("State", VStr "Eastern Province"); ("Country", VStr "Saudi Arabia");
                  ("Latitude", VFloat (mkFloat 265208 4));
                  ("Longitude", VFloat (mkFloat 500245 4));
                  ("Event_Date", VStr "2019-08-22");
                  ("Event_Type", VStr "Military Activity");
                  ("Event_Subtype", VStr "Conflict");
                  ("Warning_ID", v)] in
  let line := "{'Actor': 'Royal Saudi Military', 'City': 'Al Qaţīf', 'Country': 'Saudi Arabia', 'Event_Date': '2019-08-22', 'Event_Subtype': 'Conflict', 'Event_Type': 'Military Activity', 'Latitude': 26.5208, 'Longitude': 50.0245, 'State': 'Eastern Province', 'Warning_ID': " ++ rep ++ "}" in
  safe_repr r = Some line
  /\ (80 < py_len line)%Z
  /\ format_ r 13 1 =
       Some (String.concat ("," ++ nl ++ spaces 14)
               ["{'Actor': 'Royal Saudi Military'";
                "'City': 'Al Qaţīf'";
                "'Country': 'Saudi Arabia'";
                "'Event_Date': '2019-08-22'";
                "'Event_Subtype': 'Conflict'";
                "'Event_Type': 'Military Activity'";
                "'Latitude': 26.5208";
                "'Longitude': 50.0245";
                "'State': 'Eastern Province'";
                "'Warning_ID': " ++ rep ++ "}"]).
Proof.
  intros Hr Hn Hf r line. subst r line. record_layout Hr Hn Hf.
Qed.

(** The second record, which ends the list: one more column is kept free. *)
Lemma record_1_layout (v : pyval) (rep : string) :
  safe_repr v = Some rep ->
  py_len rep = 42%Z ->
  format_ v 28 3 = Some rep ->
  let r := VDict [("Actor", VStr "Royal Saudi Military"); ("City", VStr "Al ‘Awāmīyah");
                  ("State", VStr "Eastern Province"); ("Country", VStr "Saudi Arabia");
                  ("Latitude", VFloat (mkFloat 265936 4));
                  ("Longitude", VFloat (mkFloat 499875 4));
                  ("Event_Date", VStr "2019-08-24");
                  ("Event_Type", VStr "Military Activity");
                  ("Event_Subtype", VStr "Conflict");
                  ("Warning_ID", v)] in
  let line := "{'Actor': 'Royal Saudi Military', 'City': 'Al ‘Awāmīyah', 'Country': 'Saudi Arabia', 'Event_Date': '2019-08-24', 'Event_Subtype': 'Conflict', 'Event_Type': 'Military Activity', 'Latitude': 26.5936, 'Longitude': 49.9875, 'State': 'Eastern Province', 'Warning_ID': " ++ rep ++ "}" in
  safe_repr r = Some line
  /\ (80 < py_len line)%Z
  /\ format_ r 13 2 =
       Some (String.concat ("," ++ nl ++ spaces 14)
               ["{'Actor': 'Royal Saudi Military'";
                "'City': 'Al ‘Awāmīyah'";
                "'Country': 'Saudi Arabia'";
                "'Event_Date': '2019-08-24'";
                "'Event_Subtype': 'Conflict'";
                "'Event_Type': 'Military Activity'";
                "'Latitude': 26.5936";
                "'Longitude': 49.9875";
                "'State': 'Eastern Province'";
                "'Warning_ID': " ++ rep ++ "}"]).
Proof.
  intros Hr Hn Hf r line. subst r line. record_layout Hr Hn Hf.
Qed.

(** The envelope around two records that are each too wide for a line. *)
Lemma envelope_layout (r0 r1 : pyval) (R0 R1 T0 T1 : string) :
  safe_repr r0 = Some R0 -> safe_repr r1 = Some R1 ->
  (80 < py_len R0)%Z -> (80 < py_len R1)%Z ->
  format_ r0 13 1 = Some T0 -> format_ r1 13 2 = Some T1 ->
  pformat (VDict [("participant_id", VStr "testuser"); ("payload", VList [r0; r1])])
  = Some ("{'participant_id': 'testuser'," ++ nl ++ " 'payload': [" ++ T0 ++ ","
          ++ nl ++ spaces 13 ++ T1 ++ "]}").
Proof.
  intros H0 H1 Hn0 Hn1 Hf0 Hf1.
  unfold pformat.
  crunch. rewrite H0. crunch. rewrite H1. crunch.
  rewrite !py_len_app. crunch.
  repeat match goal with
         | |- context [Z.leb ?x ?y] =>
             replace (Z.leb x y) with false by (symmetry; apply Z.leb_gt; lia)
         end.
  rewrite Hf0, Hf1. crunch.
  rewrite ?append_assoc. reflexivity.
Qed.

(** The recorded text with the recorded hex strings is the recorded output. *)
Example recorded_text_at_recorded_hex :
  recorded_text "150f4133679d4448aaa2174c945534bd" "c392c27b6e3b4983925feeaa6c90dd68"
  = recorded_output_2.
Proof. vm_compute. reflexivity. Qed.

(** C6: with the notebook's literals, the submission that cell 2 prints has
    the structure of the recorded output and is written as the recorded
    text, the two hex strings being the only parts that vary. *)
Theorem submission_prints_as_recorded (tok : string) (w : world) (n : nat) :
  hex_token (draw w n) = true ->
  hex_token (draw w (S n)) = true ->
  exists g2 : cell2_vars,
    run (cells_1_2 tok "testuser") w n =
      mkRun [EvPrint (VDict (submission g2))] (Returned g2) (S (S n))
    /\ shown (VDict (submission g2)) = recorded_structure (draw w n) (draw w (S n))
    /\ pprint_text (VDict (submission g2)) =
         Some (recorded_text (draw w n) (draw w (S n))).
Proof.
  intros Hh0 Hh1.
  unfold cells_1_2. rewrite run_bind, run_cell1.
  cbn [final trace draws_used app].
  match goal with
  | |- context [run (cell2 ?g) w n] =>
      destruct (run_cell2 g w n) as (g2 & Hrun & Hid0 & Hid1 & Hc0 & Hc1 & Hsub)
  end.
  cbn [userid] in *.
  exists g2. rewrite Hrun. split; [reflexivity|].
  rewrite Hsub, Hc0, Hc1, Hid0, Hid1. split; [reflexivity|].
  destruct (warning_id_repr (draw w n) 28 2 Hh0 ltac:(lia)) as (Hr0 & Hl0 & Hf0).
  destruct (warning_id_repr (draw w (S n)) 28 3 Hh1 ltac:(lia)) as (Hr1 & Hl1 & Hf1).
  destruct (record_0_layout _ _ Hr0 Hl0 Hf0) as (HR0 & HW0 & HF0).
  destruct (record_1_layout _ _ Hr1 Hl1 Hf1) as (HR1 & HW1 & HF1).
  unfold pprint_text.
  rewrite (envelope_layout _ _ _ _ _ _ HR0 HR1 HW0 HW1 HF0 HF1).
  cbn [option_map]. f_equal.
  unfold recorded_text, lines.
  cbn [String.concat map]. rewrite ?append_assoc. reflexivity.
Qed.

Lemma submission_prints_as_recorded_witness :
  exists g2 : cell2_vars,
    run (cells_1_2 "mysecretkey" "testuser") recorded_world 0 =
      mkRun [EvPrint (VDict (submission g2))] (Returned g2) 2
    /\ shown (VDict (submission g2)) =
         recorded_structure "150f4133679d4448aaa2174c945534bd"
                            "c392c27b6e3b4983925feeaa6c90dd68"
    /\ pprint_text (VDict (submission g2)) =
         Some (recorded_text "150f4133679d4448aaa2174c945534bd"
                             "c392c27b6e3b4983925feeaa6c90dd68").
Proof.
  apply (submission_prints_as_recorded "mysecretkey" recorded_world 0);
    vm_compute; reflexivity.
Defined.

(** * Further properties of the cells *)

(** ** The API key and the participant *)

(** X1: every request a run writes carries as [x-api-key] the
    [participant_id] of the submission, a colon, and the secret token, and
    has that submission or nothing as its body: header and body name the same
    participant.  The first such request is written whenever [user:token] is
    a valid header value and the server can be reached. *)
Theorem api_key_names_the_participant (tok user : string) (w : world) (n : nat) :
  exists (g2 : cell2_vars) (pid : string),
    final (run (cells_1_2 tok user) w n) = Returned g2
    /\ dict_get "participant_id" (submission g2) = Some (VStr pid)
    /\ Forall (fun req =>
                 get_header "x-api-key" (req_headers req) = Some (pid ++ ":" ++ tok)
                 /\ (req_json req = Some (VDict (submission g2)) \/ req_json req = None))
              (posted (trace (run (notebook tok user) w n)))
    /\ if valid_header_value (pid ++ ":" ++ tok) then
         match server w (first_request tok pid (submission g2)) with
         | NotSent _ => posted (trace (run (notebook tok user) w n)) = []
         | _ => exists rest,
                  posted (trace (run (notebook tok user) w n)) =
                    first_request tok pid (submission g2) :: rest
         end
       else posted (trace (run (notebook tok user) w n)) = [].
Proof.
  destruct (notebook_requests tok user w n) as (g2 & Hrun & Hpid & Hall).
  destruct (notebook_first_request tok user w n) as (g2' & Hrun' & _ & Hfirst).
  assert (g2' = g2) as -> by (rewrite Hrun in Hrun'; now injection Hrun').
  exists g2, user. rewrite Hrun. cbn [final].
  split; [reflexivity|]. split; [exact Hpid|]. split; [exact Hall|].
  destruct (valid_header_value (user ++ ":" ++ tok)); [|exact Hfirst].
  destruct (server w (first_request tok user (submission g2)));
    try exact Hfirst; destruct Hfirst as (rest & -> & _); eauto.
Qed.

Lemma colon_split_unique (u1 u2 t1 t2 : string) :
  contains ":" u1 = false -> contains ":" u2 = false ->
  u1 ++ ":" ++ t1 = u2 ++ ":" ++ t2 -> u1 = u2 /\ t1 = t2.
Proof.
  revert u2. induction u1 as [|c u1 IH]; intros [|d u2] H1 H2 Heq.
  - cbn in Heq. injection Heq as ->. auto.
  - cbn [append] in Heq. injection Heq as <- _.
    cbn [contains] in H2. rewrite Ascii.eqb_refl in H2. discriminate H2.
  - cbn [append] in Heq. injection Heq as -> _.
    cbn [contains] in H1. rewrite Ascii.eqb_refl in H1. discriminate H1.
  - cbn [append] in Heq. injection Heq as <- Heq.
    cbn [contains] in H1, H2.
    apply orb_false_iff in H1 as [_ H1]. apply orb_false_iff in H2 as [_ H2].
    destruct (IH u2 H1 H2 Heq) as [-> ->]. auto.
Qed.

(** X2: for user names without a colon, the [x-api-key] header that cell 1
    builds determines both the user name and the token: two runs whose
    headers agree have the same credentials. *)
Theorem api_key_determines_credentials (tok1 user1 tok2 user2 : string)
        (w1 w2 : world) (n1 n2 : nat) (g1 g2 : cell1_vars) :
  contains ":" user1 = false ->
  contains ":" user2 = false ->
  final (run (cell1 tok1 user1) w1 n1) = Returned g1 ->
  final (run (cell1 tok2 user2) w2 n2) = Returned g2 ->
  dict_get "x-api-key" (headers g1) = dict_get "x-api-key" (headers g2) ->
  user1 = user2 /\ tok1 = tok2.
Proof.
  intros Hc1 Hc2 Hg1 Hg2 Hkey.
  rewrite run_cell1 in Hg1, Hg2. cbn [final] in Hg1, Hg2.
  injection Hg1 as <-. injection Hg2 as <-.
  cbn -[append] in Hkey. injection Hkey as Hkey.
  exact (colon_split_unique _ _ _ _ Hc1 Hc2 Hkey).
Qed.

Lemma api_key_determines_credentials_witness :
  "testuser" = "testuser" /\ "mysecretkey" = "mysecretkey".
Proof.
  apply (api_key_determines_credentials
           "mysecretkey" "testuser" "mysecretkey" "testuser"
           recorded_world recorded_world 0 0
           (mkCell1 "mysecretkey" "testuser" intake_url
                    [("x-api-key", VStr "testuser:mysecretkey")])
           (mkCell1 "mysecretkey" "testuser" intake_url
                    [("x-api-key", VStr "testuser:mysecretkey")]));
    reflexivity.
Defined.

(** Without that restriction two different participants can send the same
    header. *)
Example api_key_ambiguous_with_colon :
  exists g1 g2 : cell1_vars,
    final (run (cell1 "c" "a:b") recorded_world 0) = Returned g1
    /\ final (run (cell1 "b:c" "a") recorded_world 0) = Returned g2
    /\ headers g1 = headers g2
    /\ userid g1 <> userid g2.
Proof.
  eexists. eexists. repeat split; try reflexivity. cbn. discriminate.
Qed.

(** ** Warning identifiers across participants *)

Lemma length_append (a b : string) :
  String.length (a ++ b) = (String.length a + String.length b)%nat.
Proof.
  induction a as [|c a IH]; cbn [append String.length]; [reflexivity | now rewrite IH].
Qed.

Lemma append_same_length_inj (u1 u2 h1 h2 : string) :
  String.length h1 = String.length h2 ->
  u1 ++ h1 = u2 ++ h2 -> u1 = u2 /\ h1 = h2.
Proof.
  intros Hlen Heq.
  assert (Hl : String.length u1 = String.length u2).
  { apply (f_equal String.length) in Heq. rewrite !length_append in Heq. lia. }
  clear Hlen. revert u2 Hl Heq.
  induction u1 as [|c u1 IH]; intros [|d u2] Hl Heq; try discriminate Hl.
  - auto.
  - cbn [append] in Heq. injection Heq as <- Heq.
    cbn [String.length] in Hl. injection Hl as Hl.
    destruct (IH u2 Hl Heq) as [-> ->]. auto.
Qed.

Lemma hex_token_length (h : string) : hex_token h = true -> String.length h = 32%nat.
Proof.
  intros H. apply andb_prop in H as [H _]. now apply Nat.eqb_eq.
Qed.

(** X3: when the UUIDs drawn are 32 hex digits, a warning identifier
    determines the participant and the UUID it was built from: identifiers
    of two runs, of any two participants, are equal only if both the user
    names and the UUIDs are. *)
Theorem warning_id_determines_participant (tok tok' user user' : string)
        (w w' : world) (n n' : nat) (g g' : cell2_vars) :
  hex_token (draw w n) = true -> hex_token (draw w (S n)) = true ->
  hex_token (draw w' n') = true -> hex_token (draw w' (S n')) = true ->
  final (run (cells_1_2 tok user) w n) = Returned g ->
  final (run (cells_1_2 tok' user') w' n') = Returned g' ->
  (warn_id_0 g = warn_id_0 g' -> user = user' /\ draw w n = draw w' n')
  /\ (warn_id_1 g = warn_id_1 g' -> user = user' /\ draw w (S n) = draw w' (S n'))
  /\ (warn_id_0 g = warn_id_1 g' -> user = user' /\ draw w n = draw w' (S n')).
Proof.
  intros H0 H1 H0' H1' Hg Hg'.
  destruct (run_cells_1_2 tok user w n) as (x & Hrun & Hid0 & Hid1 & _).
  rewrite Hrun in Hg. cbn [final] in Hg. injection Hg as ->.
  destruct (run_cells_1_2 tok' user' w' n') as (x' & Hrun' & Hid0' & Hid1' & _).
  rewrite Hrun' in Hg'. cbn [final] in Hg'. injection Hg' as ->.
  apply hex_token_length in H0, H1, H0', H1'.
  rewrite Hid0, Hid1, Hid0', Hid1'.
  split; [|split]; intros Heq;
    (apply append_same_length_inj in Heq; [exact Heq | congruence]).
Qed.

Lemma warning_id_determines_participant_witness :
  exists g : cell2_vars,
    final (run (cells_1_2 "mysecretkey" "testuser") recorded_world 0) = Returned g
    /\ (warn_id_0 g = warn_id_0 g ->
        "testuser" = "testuser" /\ draw recorded_world 0 = draw recorded_world 0).
Proof.
  eexists. split; [reflexivity|].
  refine (proj1 (warning_id_determines_participant
                   "mysecretkey" "mysecretkey" "testuser" "testuser"
                   recorded_world recorded_world 0 0 _ _ _ _ _ _ _ _));
    reflexivity.
Defined.

(** With UUIDs of unequal length the decomposition is lost. *)
Example warning_id_collision_without_fixed_length :
  exists g g' : cell2_vars,
    final (run (cells_1_2 "t" "ab") (mkWorld (fun _ => "c") (fun _ => NotSent ConnectionError)) 0) = Returned g
    /\ final (run (cells_1_2 "t" "a") (mkWorld (fun _ => "bc") (fun _ => NotSent ConnectionError)) 0) = Returned g'
    /\ warn_id_0 g = warn_id_0 g'.
Proof.
  eexists. eexists. repeat split; reflexivity.
Qed.

(** ** Building the submission needs no network *)

Lemma offline_bind {A B : Type} (p : prog A) (f : A -> prog B) :
  offline p -> (forall a, offline (f a)) -> offline (bind p f).
Proof.
  intros Hp Hf. induction Hp as [a|e|k _ IH|v k _ IH]; cbn [bind].
  - apply Hf.
  - constructor.
  - constructor. exact IH.
  - constructor. exact IH.
Qed.

Lemma offline_or_raise {A : Type} (e : exn) (o : option A) : offline (or_raise e o).
Proof.
  destruct o; constructor.
Qed.

(** An offline program sends nothing and runs the same against any server. *)
Lemma offline_run {A : Type} (p : prog A) :
  offline p ->
  forall (draws : nat -> string) (srv1 srv2 : request -> exchange) (n : nat),
    run p (mkWorld draws srv1) n = run p (mkWorld draws srv2) n
    /\ posted (trace (run p (mkWorld draws srv1) n)) = [].
Proof.
  intros Hp draws srv1 srv2.
  induction Hp as [a|e|k _ IH|v k _ IH]; intros n; cbn [run draw].
  - auto.
  - auto.
  - apply IH.
  - destruct (IH n) as [-> Hposted]. cbn [emit trace posted]. auto.
Qed.

Lemma cell1_offline (tok user : string) : offline (cell1 tok user).
Proof.
  unfold cell1. apply offline_bind; [apply offline_or_raise|].
  intros key. constructor.
Qed.

Lemma cell2_offline (g : cell1_vars) : offline (cell2 g).
Proof.
  unfold cell2, uuid4_hex, pprint. cbn [bind].
  constructor. intros h0.
  apply offline_bind; [apply offline_or_raise|]. intros id0.
  constructor. intros h1.
  apply offline_bind; [apply offline_or_raise|]. intros id1.
  cbn [bind]. repeat constructor.
Qed.

Lemma building_offline_same (tok user : string) (draws : nat -> string)
      (srv1 srv2 : request -> exchange) (n : nat) :
  run (cells_1_2 tok user) (mkWorld draws srv1) n =
    run (cells_1_2 tok user) (mkWorld draws srv2) n.
Proof.
  apply offline_run. unfold cells_1_2.
  apply offline_bind; [apply cell1_offline|]. intros g. apply cell2_offline.
Qed.

(** X4: cells 1 and 2 never touch the network: for every token, user name
    and UUID stream they send no request, and they print and return the same
    whatever server is behind the endpoint, even one that is down. *)
Theorem building_the_submission_is_offline (tok user : string) (draws : nat -> string)
        (srv1 srv2 : request -> exchange) (n : nat) :
  run (cells_1_2 tok user) (mkWorld draws srv1) n =
    run (cells_1_2 tok user) (mkWorld draws srv2) n
  /\ posted (trace (run (cells_1_2 tok user) (mkWorld draws srv1) n)) = []
  /\ returned (final (run (cells_1_2 tok user) (mkWorld draws srv1) n)) = true.
Proof.
  assert (Hoff : offline (cells_1_2 tok user)).
  { unfold cells_1_2. apply offline_bind; [apply cell1_offline|].
    intros g. apply cell2_offline. }
  destruct (offline_run _ Hoff draws srv1 srv2 n) as [Hsame Hposted].
  split; [exact Hsame | split; [exact Hposted|]].
  destruct (run_cells_1_2 tok user (mkWorld draws srv1) n) as (g2 & -> & _).
  reflexivity.
Qed.

(** ** What is printed is what is sent *)


(** ** An error status is not an error *)



(** ** The UUIDs and the rest of the request *)

(** X7: the UUIDs drawn reach the [Warning_ID] fields and nothing else: two
    runs with the same credentials and any two UUID streams build records
    that agree on every field but [Warning_ID] and the same [participant_id],
    and the first request either run writes has the same method, URL and
    headers as the other's; every request written carries the same
    [x-api-key]. *)
Theorem uuids_touch_only_warning_ids (tok user : string) (w w' : world) (n n' : nat) :
  exists g g' : cell2_vars,
    final (run (cells_1_2 tok user) w n) = Returned g
    /\ final (run (cells_1_2 tok user) w' n') = Returned g'
    /\ dict_get "participant_id" (submission g) = dict_get "participant_id" (submission g')
    /\ without_key "Warning_ID" (warn_content_0 g) = without_key "Warning_ID" (warn_content_0 g')
    /\ without_key "Warning_ID" (warn_content_1 g) = without_key "Warning_ID" (warn_content_1 g')
    /\ req_method (first_request tok user (submission g))
       = req_method (first_request tok user (submission g'))
    /\ req_url (first_request tok user (submission g))
       = req_url (first_request tok user (submission g'))
    /\ req_headers (first_request tok user (submission g))
       = req_headers (first_request tok user (submission g'))
    /\ match posted (trace (run (notebook tok user) w n)) with
       | r :: _ => r = first_request tok user (submission g)
       | [] => True
       end
    /\ match posted (trace (run (notebook tok user) w' n')) with
       | r :: _ => r = first_request tok user (submission g')
       | [] => True
       end
    /\ Forall (fun r => get_header "x-api-key" (req_headers r) = Some (user ++ ":" ++ tok))
              (posted (trace (run (notebook tok user) w n)) ++
               posted (trace (run (notebook tok user) w' n')))%list.
Proof.
  assert (Hhead : forall v k,
             exists x : cell2_vars,
               run (cells_1_2 tok user) v k =
                 mkRun [EvPrint (VDict (submission x))] (Returned x) (S (S k))
               /\ match posted (trace (run (notebook tok user) v k)) with
                  | r :: _ => r = first_request tok user (submission x)
                  | [] => True
                  end
               /\ Forall (fun r => get_header "x-api-key" (req_headers r)
                                   = Some (user ++ ":" ++ tok))
                         (posted (trace (run (notebook tok user) v k)))).
  { intros v k.
    destruct (notebook_first_request tok user v k) as (x & Hx & _ & Hfirst).
    destruct (notebook_requests tok user v k) as (x' & Hx' & _ & Hall).
    assert (x' = x) as -> by (rewrite Hx in Hx'; now injection Hx').
    exists x. split; [exact Hx|]. split.
    - destruct (valid_header_value (user ++ ":" ++ tok)); [|now rewrite Hfirst].
      destruct (server v (first_request tok user (submission x)));
        try (destruct Hfirst as (rest & -> & _); reflexivity).
      now rewrite Hfirst.
    - eapply Forall_impl; [|exact Hall]. cbn. tauto. }
  destruct (Hhead w n) as (g & Hg & Hh & Hk).
  destruct (Hhead w' n') as (g' & Hg' & Hh' & Hk').
  exists g, g'. rewrite Hg, Hg'. cbn [final].
  split; [reflexivity|]. split; [reflexivity|].
  assert (Hrec : dict_get "participant_id" (submission g)
                 = dict_get "participant_id" (submission g')
                 /\ without_key "Warning_ID" (warn_content_0 g)
                    = without_key "Warning_ID" (warn_content_0 g')
                 /\ without_key "Warning_ID" (warn_content_1 g)
                    = without_key "Warning_ID" (warn_content_1 g')).
  { revert Hg Hg'. unfold cells_1_2. rewrite !run_bind, !run_cell1.
    cbn [final trace draws_used app].
    match goal with
    | |- context [run (cell2 ?c) w n] =>
        destruct (run_cell2 c w n) as (x & Hrun & _ & _ & Hc0 & Hc1 & Hsub);
        destruct (run_cell2 c w' n') as (x' & Hrun' & _ & _ & Hc0' & Hc1' & Hsub')
    end.
    rewrite Hrun, Hrun'. cbn [final trace draws_used]. intros Hg Hg'.
    injection Hg as _ ->. injection Hg' as _ ->.
    rewrite Hsub, Hsub', Hc0, Hc0', Hc1, Hc1'. repeat split; reflexivity. }
  destruct Hrec as (H1 & H2 & H3).
  do 3 (split; [assumption|]).
  do 3 (split; [reflexivity|]).
  split; [exact Hh|]. split; [exact Hh'|].
  apply Forall_app. split; assumption.
Qed.

(** * Dicts and printing

    ** Item assignment and dict displays *)

Lemma dict_get_setitem (k k' : string) (v : pyval) (d : pydict) :
  dict_get k' (dict_setitem k v d) =
  if String.eqb k' k then Some v else dict_get k' d.
Proof.
  induction d as [|[k0 v0] d IH]; cbn [dict_setitem dict_get].
  - reflexivity.
  - destruct (String.eqb k k0) eqn:E; cbn [dict_get].
    + apply String.eqb_eq in E. subst k0.
      destruct (String.eqb k' k); reflexivity.
    + rewrite IH. destruct (String.eqb k' k0) eqn:E'; [|reflexivity].
      apply String.eqb_eq in E'. subst k0.
      destruct (String.eqb k' k) eqn:E''; [|reflexivity].
      apply String.eqb_eq in E''. subst. rewrite String.eqb_refl in E. discriminate.
Qed.

Lemma keys_setitem (k : string) (v : pyval) (d : pydict) :
  keys (dict_setitem k v d) = if mem k (keys d) then keys d else (keys d ++ [k])%list.
Proof.
  unfold mem, keys.
  induction d as [|[k0 v0] d IH]; cbn [dict_setitem map fst existsb app].
  - reflexivity.
  - destruct (String.eqb k k0) eqn:E; cbn [map fst orb].
    + apply String.eqb_eq in E. now subst.
    + rewrite IH. destruct (existsb (String.eqb k) (map fst d)); reflexivity.
Qed.

Lemma mem_In (k : string) (l : list string) : mem k l = true <-> In k l.
Proof.
  unfold mem. rewrite existsb_exists. split.
  - intros (x & Hx & E). apply String.eqb_eq in E. now subst.
  - intros H. exists k. split; [exact H | apply String.eqb_refl].
Qed.

Lemma setitem_keeps_distinct (k : string) (v : pyval) (d : pydict) :
  NoDup (keys d) -> NoDup (keys (dict_setitem k v d)).
Proof.
  intros H. rewrite keys_setitem. destruct (mem k (keys d)) eqn:E; [exact H|].
  apply NoDup_app; [exact H | repeat constructor; intros [] |].
  intros x Hx [<-|[]]. apply mem_In in Hx. congruence.
Qed.

Lemma fold_setitem_distinct (items : list (string * pyval)) (acc : pydict) :
  NoDup (keys acc) ->
  NoDup (keys (fold_left (fun d kv => dict_setitem (fst kv) (snd kv) d) items acc)).
Proof.
  revert acc. induction items as [|[k v] items IH]; intros acc H; cbn [fold_left].
  - exact H.
  - apply IH. now apply setitem_keeps_distinct.
Qed.

Lemma fold_setitem_get (k : string) (items : list (string * pyval)) (acc : pydict) :
  dict_get k (fold_left (fun d kv => dict_setitem (fst kv) (snd kv) d) items acc) =
  match dict_get k (rev items) with
  | Some v => Some v
  | None => dict_get k acc
  end.
Proof.
  revert acc. induction items as [|[k0 v0] items IH]; intros acc; cbn [fold_left rev].
  - reflexivity.
  - rewrite IH. cbn [fst snd].
    assert (Hget : forall l : pydict, dict_get k (l ++ [(k0, v0)])%list =
                             match dict_get k l with
                             | Some v => Some v
                             | None => if String.eqb k k0 then Some v0 else None
                             end).
    { induction l as [|[k1 v1] l IHl]; cbn [app dict_get]; [reflexivity|].
      destruct (String.eqb k k1); [reflexivity | exact IHl]. }
    rewrite Hget, dict_get_setitem.
    destruct (dict_get k (rev items)); [reflexivity|].
    destruct (String.eqb k k0); reflexivity.
Qed.

(** X9: a dict display never yields a key twice, and looking a key up gives
    the value of its last occurrence in the display. *)
Theorem dict_literal_keys_distinct_last_wins (items : list (string * pyval)) :
  NoDup (keys (dict_literal items))
  /\ forall k, dict_get k (dict_literal items) = dict_get k (rev items).
Proof.
  unfold dict_literal. split.
  - apply fold_setitem_distinct. constructor.
  - intros k. rewrite fold_setitem_get. now destruct (dict_get k (rev items)).
Qed.

Lemma fold_setitem_fresh (items : list (string * pyval)) (acc : pydict) :
  NoDup (keys acc ++ map fst items) ->
  fold_left (fun d kv => dict_setitem (fst kv) (snd kv) d) items acc = (acc ++ items)%list.
Proof.
  revert acc. induction items as [|[k v] items IH]; intros acc H; cbn [fold_left].
  - now rewrite app_nil_r.
  - cbn [fst snd map] in *.
    assert (Hfresh : dict_setitem k v acc = (acc ++ [(k, v)])%list).
    { apply NoDup_remove_2 in H.
      assert (Hk : ~ In k (keys acc)) by (intros Hin; apply H, in_or_app; now left).
      clear -Hk. induction acc as [|[k1 v1] acc IHa]; cbn [dict_setitem app]; [reflexivity|].
      destruct (String.eqb k k1) eqn:E.
      - apply String.eqb_eq in E. subst. exfalso. apply Hk. now left.
      - rewrite IHa; [reflexivity|]. intros Hin. apply Hk. now right. }
    rewrite Hfresh, IH.
    + now rewrite <- app_assoc.
    + unfold keys in *. rewrite map_app, <- app_assoc. exact H.
Qed.

(** X10: a dict display whose keys are pairwise distinct evaluates to
    its items in the order written, which is the order the JSON body keeps. *)
Theorem dict_literal_distinct_keys (items : list (string * pyval)) :
  NoDup (map fst items) -> dict_literal items = items.
Proof.
  intros H. unfold dict_literal. now rewrite fold_setitem_fresh.
Qed.

Lemma dict_literal_distinct_keys_witness :
  dict_literal [("participant_id", VStr "testuser"); ("payload", VList [])]
  = [("participant_id", VStr "testuser"); ("payload", VList [])].
Proof.
  apply (dict_literal_distinct_keys
           [("participant_id", VStr "testuser"); ("payload", VList [])]).
  repeat constructor; cbn; intuition discriminate.
Defined.

(** X8: after [d[k] = v] a lookup of [k] gives [v] and every other key gives
    what it gave before; the keys keep their order, [k] being added at the end
    only when it was not there. *)
Theorem item_assignment (k : string) (v : pyval) (d : pydict) :
  (forall k', dict_get k' (dict_setitem k v d) =
              if String.eqb k' k then Some v else dict_get k' d)
  /\ keys (dict_setitem k v d) = (if mem k (keys d) then keys d else keys d ++ [k])%list.
Proof.
  split; [intros k'; apply dict_get_setitem | apply keys_setitem].
Qed.

(** ** The order of fields does not show in the output *)

Lemma string_leb_trans (s1 s2 s3 : string) :
  String.leb s1 s2 = true -> String.leb s2 s3 = true -> String.leb s1 s3 = true.
Proof.
  unfold String.leb. revert s2 s3.
  induction s1 as [|a s1 IH]; intros [|b s2] [|c s3]; cbn [String.compare];
    try (intros; reflexivity); try (intros; discriminate).
  unfold Ascii.compare.
  destruct (N.compare_spec (N_of_ascii a) (N_of_ascii b)) as [Hab|Hab|Hab];
    destruct (N.compare_spec (N_of_ascii b) (N_of_ascii c)) as [Hbc|Hbc|Hbc];
    destruct (N.compare_spec (N_of_ascii a) (N_of_ascii c)) as [Hac|Hac|Hac];
    try lia; try (intros; reflexivity); try (intros; discriminate).
  apply IH.
Qed.

Lemma insert_item_perm {V : Type} (kv : string * V) (l : list (string * V)) :
  Permutation (kv :: l) (insert_item kv l).
Proof.
  induction l as [|h t IH]; cbn [insert_item]; [reflexivity|].
  destruct (String.leb (fst kv) (fst h)); [reflexivity|].
  rewrite perm_swap. now apply perm_skip.
Qed.

Lemma sort_items_perm {V : Type} (l : list (string * V)) : Permutation l (sort_items l).
Proof.
  induction l as [|h t IH]; cbn; [reflexivity|].
  rewrite <- insert_item_perm. now apply perm_skip.
Qed.

Lemma insert_item_sorted {V : Type} (kv : string * V) (l : list (string * V)) :
  StronglySorted key_le l -> StronglySorted key_le (insert_item kv l).
Proof.
  induction 1 as [|h t Ht IH Hh]; cbn [insert_item].
  - repeat constructor.
  - destruct (String.leb (fst kv) (fst h)) eqn:E.
    + constructor; [now constructor|].
      constructor; [exact E|].
      eapply Forall_impl; [|exact Hh].
      intros x Hx. unfold key_le in *. eapply string_leb_trans; eassumption.
    + constructor; [exact IH|].
      eapply Permutation_Forall; [apply insert_item_perm|].
      constructor; [|exact Hh].
      unfold key_le. destruct (String.leb_total (fst kv) (fst h)) as [H|H]; congruence.
Qed.

Lemma sort_items_sorted {V : Type} (l : list (string * V)) :
  StronglySorted key_le (sort_items l).
Proof.
  induction l as [|h t IH]; cbn; [constructor | now apply insert_item_sorted].
Qed.

Lemma sorted_perm_unique {V : Type} (l1 l2 : list (string * V)) :
  StronglySorted key_le l1 -> StronglySorted key_le l2 ->
  NoDup (map fst l1) -> Permutation l1 l2 -> l1 = l2.
Proof.
  intros S1. revert l2. induction S1 as [|a l1 S1 IH Ha]; intros l2 S2 Hnd Hp.
  - apply Permutation_nil in Hp. now subst.
  - destruct l2 as [|b l2]; [now apply Permutation_sym, Permutation_nil in Hp|].
    apply StronglySorted_inv in S2 as [S2 Hb].
    assert (Hab : a = b).
    { assert (Hbin : In b (a :: l1)) by (eapply Permutation_in; [symmetry; exact Hp | now left]).
      destruct Hbin as [->|Hbin]; [reflexivity|].
      assert (Hain : In a (b :: l2)) by (eapply Permutation_in; [exact Hp | now left]).
      destruct Hain as [->|Hain]; [reflexivity|].
      exfalso.
      rewrite Forall_forall in Ha, Hb.
      assert (Hk : fst a = fst b) by (apply String.leb_antisym; [apply Ha | apply Hb]; assumption).
      cbn in Hnd. inversion Hnd as [|x xs Hnotin _]; subst.
      apply Hnotin. rewrite Hk. now apply in_map. }
    subst b. f_equal. apply IH; [exact S2 | now inversion Hnd |].
    eapply Permutation_cons_inv; exact Hp.
Qed.

Lemma sort_items_perm_eq {V : Type} (l1 l2 : list (string * V)) :
  NoDup (map fst l1) -> Permutation l1 l2 -> sort_items l1 = sort_items l2.
Proof.
  intros Hnd Hp. apply sorted_perm_unique; try apply sort_items_sorted.
  - eapply Permutation_NoDup; [|exact Hnd].
    apply Permutation_map, sort_items_perm.
  - rewrite <- (sort_items_perm l1), <- (sort_items_perm l2). exact Hp.
Qed.

Lemma pprint_text_permuted (d d' : pydict) :
  NoDup (keys d) -> Permutation d d' ->
  pprint_text (VDict d) = pprint_text (VDict d').
Proof.
  intros Hnd Hp.
  assert (Hs : forall (V : Type) (g : pyval -> V),
             sort_items (map (fun kv => (fst kv, g (snd kv))) d)
             = sort_items (map (fun kv => (fst kv, g (snd kv))) d')).
  { intros V g. apply sort_items_perm_eq; [|now apply Permutation_map].
    rewrite map_map. exact Hnd. }
  unfold pprint_text, pformat. cbn [format_ safe_repr].
  rewrite (Hs _ safe_repr), (Hs _ format_). reflexivity.
Qed.

(** X11: when [pprint] writes the text [text] for a dict (one whose layout
    is within the model: no string too wide for its line), it writes the same
    text for a dict with the same items in any other order, so the order in
    which the server lists the fields of its answer, or the script those of a
    record, does not show. *)
Theorem pprint_ignores_field_order (d d' : pydict) (text : string) :
  NoDup (keys d) -> Permutation d d' ->
  pprint_text (VDict d) = Some text ->
  pprint_text (VDict d') = Some text.
Proof.
  intros Hnd Hp Htext. now rewrite <- (pprint_text_permuted d d' Hnd Hp).
Qed.

Lemma pprint_ignores_field_order_witness :
  pprint_text (VDict [("Existing warnings updated", VInt 0);
                      ("Invalid warnings", VInt 0);
                      ("New warnings or versions inserted", VInt 2);
                      ("Total operations", VInt 2);
                      ("reason", VNone);
                      ("result", VStr "ok")])
  = Some recorded_output_3.
Proof.
  apply (pprint_ignores_field_order
           [("New warnings or versions inserted", VInt 2);
            ("reason", VNone);
            ("Total operations", VInt 2);
            ("Existing warnings updated", VInt 0);
            ("Invalid warnings", VInt 0);
            ("result", VStr "ok")]).
  - repeat constructor; cbn; intuition discriminate.
  - apply (sort_items_perm
             [("New warnings or versions inserted", VInt 2);
              ("reason", VNone);
              ("Total operations", VInt 2);
              ("Existing warnings updated", VInt 0);
              ("Invalid warnings", VInt 0);
              ("result", VStr "ok")]).
  - vm_compute. reflexivity.
Defined.
